(** * GoCardless MCP server: the tool registry and the call_tool dispatcher

    A shallow embedding of [src/index.ts]: the configuration record, the
    request helper [makeGoCardlessRequest], the table [tools] and the two
    request handlers registered on the server (list_tools and call_tool).

    The handlers are written against values of type [any]; the embedding
    therefore starts with the fragment of the JavaScript runtime they rely
    on (truthiness, [typeof], property reads, [ToString], [ToNumber],
    [Number.prototype.toFixed], [JSON.stringify], [URLSearchParams]).
    Strings are byte strings holding the UTF-8 form of the JavaScript
    string; numbers are IEEE 754 binary64 values. *)

From Stdlib Require Import ZArith QArith Qround Bool List Lia.
From Stdlib Require Import Ascii String DecimalString.
From Stdlib Require Import Floats.PrimFloat Floats.FloatOps Floats.SpecFloat.
Import ListNotations.
Local Open Scope string_scope.
#[local] Set Warnings "-register-all,-abstract-large-number".

(* ================================================================== *)
(** ** Strings *)

Module Str.

(** [s.includes(needle)]: some suffix of [s] starts with [needle]. *)
Fixpoint includes (s needle : string) : bool :=
  String.prefix needle s
  || match s with
     | EmptyString => false
     | String _ rest => includes rest needle
     end.

(** [s.startsWith(p)]. *)
Definition startsWith (s p : string) : bool := String.prefix p s.

Fixpoint repeat0 (n : nat) : string :=
  match n with
  | O => ""
  | S k => String "0" (repeat0 k)
  end.

(** [Array.prototype.join] on an array of strings. *)
Definition join (sep : string) (parts : list string) : string :=
  String.concat sep parts.

(** Number of UTF-16 code units of the string whose UTF-8 form is [s]:
    every byte that is not a continuation byte starts a code point, and
    a four-byte sequence is a surrogate pair. *)
Fixpoint utf16_length (s : string) : nat :=
  match s with
  | EmptyString => 0
  | String c rest =>
      let b := N_of_ascii c in
      ((if (N.land b 192 =? 128)%N then 0 else 1)
       + (if (240 <=? b)%N then 1 else 0)
       + utf16_length rest)%nat
  end.

(** The code points of a string given in UTF-8. *)
Fixpoint decode (s : string) (pending : nat) (acc : N) : list N :=
  match s with
  | EmptyString => []
  | String c rest =>
      let b := N_of_ascii c in
      match pending with
      | O =>
          if (b <? 128)%N then b :: decode rest 0 0%N
          else if (b <? 224)%N then decode rest 1 (N.land b 31)
          else if (b <? 240)%N then decode rest 2 (N.land b 15)
          else decode rest 3 (N.land b 7)
      | S k =>
          let acc' := (N.shiftl acc 6 + N.land b 63)%N in
          match k with
          | O => acc' :: decode rest 0 0%N
          | S _ => decode rest k acc'
          end
      end
  end.

Definition code_points (s : string) : list N := decode s 0 0%N.

Definition of_Z (z : Z) : string :=
  match z with
  | Z0 => "0"
  | Zpos p => NilZero.string_of_uint (Pos.to_uint p)
  | Zneg p => "-" ++ NilZero.string_of_uint (Pos.to_uint p)
  end.

End Str.

(* ================================================================== *)
(** ** Numbers: binary64 and its decimal renderings *)

Module Num.

Definition of_Z (z : Z) : float :=
  SF2Prim (binary_normalize prec emax z 0 false).

Definition of_nat (n : nat) : float := of_Z (Z.of_nat n).

(** The exact value of a positive finite double [m * 2^e]. *)
Definition exact (m : positive) (e : Z) : Q :=
  inject_Z (Zpos m) * Qpower 2 e.

Definition pow10 (n : Z) : Q := Qpower 10 n.

Definition Qltb (a b : Q) : bool := negb (Qle_bool b a).

(** Decimal magnitude: the least [n >= start] with [x < 10^n]. *)
Fixpoint magnitude (fuel : nat) (x : Q) (n : Z) : Z :=
  match fuel with
  | O => n
  | S k => if Qltb x (pow10 n) then n else magnitude k x (n + 1)
  end.

(** A starting point below the decimal magnitude of [m * 2^e], from its
    binary magnitude and 0.30102 < log10 2. *)
Definition magnitude_start (m : positive) (e : Z) : Z :=
  ((Z.log2 (Zpos m) + e) * 30102 / 100000 - 1)%Z.

(** The reals that round to the double [m * 2^e] under
    round-to-nearest, ties-to-even: the interval between the midpoints
    with the neighbouring doubles, closed exactly when [m] is even. *)
Definition rounds_to (m : positive) (e : Z) (v : Q) : bool :=
  let x := exact m e in
  let up := Qpower 2 (e - 1) in
  let down := if ((Zpos m =? 2 ^ 52) && (-1074 <? e))%Z
              then Qpower 2 (e - 2) else Qpower 2 (e - 1) in
  if Z.even (Zpos m)
  then Qle_bool (x - down) v && Qle_bool v (x + up)
  else Qltb (x - down) v && Qltb v (x + up).

(** Step 5 of Number::toString: the digits [s], their count [k] and the
    decimal exponent [n] with [s * 10^(n-k)] rounding to the double,
    [k] least, [s] closest to the double, ties to an even [s]. *)
Fixpoint shortest (fuel : nat) (m : positive) (e : Z) (n0 : Z) (k : Z)
  : Z * Z * Z :=
  let x := exact m e in
  let u := pow10 (n0 - k) in
  let lo := Qfloor (x / u) in
  let hi := (lo + 1)%Z in
  let vlo := inject_Z lo * u in
  let vhi := inject_Z hi * u in
  let oklo := rounds_to m e vlo in
  let okhi := rounds_to m e vhi in
  let pick :=
    match oklo, okhi with
    | true, true =>
        match Qcompare (x - vlo) (vhi - x) with
        | Lt => Some lo
        | Gt => Some hi
        | Eq => Some (if Z.even lo then lo else hi)
        end
    | true, false => Some lo
    | false, true => Some hi
    | false, false => None
    end in
  match pick, fuel with
  | Some s, _ =>
      if (s =? 10 ^ k)%Z then (1, 1, n0 + 1)%Z else (s, k, n0)
  | None, S f => shortest f m e n0 (k + 1)
  | None, O => (lo, k, n0)
  end.

(** Steps 6 to 10 of Number::toString for a positive finite value. *)
Definition layout (s k n : Z) : string :=
  let digits := Str.of_Z s in
  if (k <=? n)%Z && (n <=? 21)%Z then
    digits ++ Str.repeat0 (Z.to_nat (n - k))
  else if (0 <? n)%Z && (n <=? 21)%Z then
    substring 0 (Z.to_nat n) digits ++ "."
    ++ substring (Z.to_nat n) (Z.to_nat (k - n)) digits
  else if (-6 <? n)%Z && (n <=? 0)%Z then
    "0." ++ Str.repeat0 (Z.to_nat (- n)) ++ digits
  else
    let ex := (n - 1)%Z in
    let tail := "e" ++ (if (ex <? 0)%Z then "-" else "+")
                ++ Str.of_Z (Z.abs ex) in
    if (k =? 1)%Z then digits ++ tail
    else substring 0 1 digits ++ "."
         ++ substring 1 (Z.to_nat (k - 1)) digits ++ tail.

Definition positive_toString (m : positive) (e : Z) : string :=
  let n0 := magnitude 8 (exact m e) (magnitude_start m e) in
  let '(s, k, n) := shortest 17 m e n0 1 in
  layout s k n.

(** Number::toString(x, 10). *)
Definition toString (x : float) : string :=
  match Prim2SF x with
  | S754_nan => "NaN"
  | S754_zero _ => "0"
  | S754_infinity false => "Infinity"
  | S754_infinity true => "-Infinity"
  | S754_finite sign m e =>
      (if sign then "-" else "") ++ positive_toString m e
  end.

(** Number.prototype.toFixed(fractionDigits), for a fraction digit
    count in 0..100. *)
Definition toFixed (x : float) (f : nat) : string :=
  match Prim2SF x with
  | S754_finite sign m e =>
      let v := exact m e in
      if Qle_bool (pow10 21) v then toString x
      else
        let n := Qfloor (v * pow10 (Z.of_nat f) + (1 # 2)) in
        let m0 := Str.of_Z n in
        let body :=
          match f with
          | O => m0
          | _ =>
              let k := String.length m0 in
              let m1 := if (k <=? f)%nat
                        then Str.repeat0 (f + 1 - k) ++ m0 else m0 in
              let k1 := String.length m1 in
              substring 0 (k1 - f) m1 ++ "." ++ substring (k1 - f) f m1
          end in
        (if sign then "-" else "") ++ body
  | S754_zero _ =>
      match f with
      | O => "0"
      | _ => "0." ++ Str.repeat0 f
      end
  | _ => toString x
  end.

(** *** StringToNumber *)

(** The nearest double to [p / d] for positive [p] and [d]: a quotient
    with ten spare bits and a sticky bit, then one rounding. *)
Definition of_ratio (p d : Z) : float :=
  let sh := Z.max 0 (64 + Z.log2 d - Z.log2 p) in
  let q := (Z.shiftl p sh / d)%Z in
  let sticky := if (Z.shiftl p sh mod d =? 0)%Z then 0%Z else 1%Z in
  SF2Prim (binary_normalize prec emax (2 * q + sticky) (- sh - 1) false).

(** The nearest double to [mant * 10^ex], [mant > 0]. *)
Definition of_decimal (mant ex : Z) : float :=
  let size := (Z.log2 mant * 30103 / 100000 + ex)%Z in
  if (310 <? size)%Z then infinity
  else if (size <? -330)%Z then zero
  else if (0 <=? ex)%Z then of_Z (mant * 10 ^ ex)
  else of_ratio mant (10 ^ (- ex)).

(** StrWhiteSpaceChar: white space and line terminators. *)
Definition is_space (c : N) : bool :=
  existsb (N.eqb c)
    [9; 10; 11; 12; 13; 32; 160; 5760; 8232; 8233; 8239; 8287; 12288;
     65279]%N
  || ((8192 <=? c) && (c <=? 8202))%N.

Fixpoint drop_space (l : list N) : list N :=
  match l with
  | c :: rest => if is_space c then drop_space rest else l
  | [] => []
  end.

Definition trim (l : list N) : list N :=
  rev (drop_space (rev (drop_space l))).

Definition digit_value (radix c : N) : option Z :=
  let v :=
    if ((48 <=? c) && (c <=? 57))%N then Some (Z.of_N c - 48)%Z
    else if ((97 <=? c) && (c <=? 102))%N then Some (Z.of_N c - 87)%Z
    else if ((65 <=? c) && (c <=? 70))%N then Some (Z.of_N c - 55)%Z
    else None in
  match v with
  | Some d => if (d <? Z.of_N radix)%Z then Some d else None
  | None => None
  end.

(** The longest run of digits at the front of [l]: its value, its
    length and what follows. *)
Fixpoint digits (radix : N) (l : list N) (acc : Z) (count : Z)
  : Z * Z * list N :=
  match l with
  | c :: rest =>
      match digit_value radix c with
      | Some d => digits radix rest (acc * Z.of_N radix + d) (count + 1)
      | None => (acc, count, l)
      end
  | [] => (acc, count, [])
  end.

Definition signed (negative : bool) (x : float) : float :=
  if negative then PrimFloat.opp x else x.

(** NonDecimalIntegerLiteral after its two-character prefix. *)
Definition integer_literal (radix : N) (l : list N) : float :=
  match digits radix l 0 0 with
  | (v, count, []) => if (0 <? count)%Z then of_Z v else nan
  | _ => nan
  end.

(** ExponentPart, empty or complete. *)
Definition exponent_part (l : list N) : option Z :=
  match l with
  | [] => Some 0%Z
  | c :: rest =>
      if (N.eqb c 101 || N.eqb c 69) then
        let '(neg, rest') :=
          match rest with
          | 43%N :: r => (false, r)
          | 45%N :: r => (true, r)
          | _ => (false, rest)
          end in
        match digits 10 rest' 0 0 with
        | (v, count, []) =>
            if (0 <? count)%Z then Some (if neg then (- v)%Z else v)
            else None
        | _ => None
        end
      else None
  end.

Definition infinity_word : list N :=
  [73; 110; 102; 105; 110; 105; 116; 121]%N.

(** StrUnsignedDecimalLiteral. *)
Definition unsigned_decimal (l : list N) : float :=
  if list_eq_dec N.eq_dec l infinity_word then infinity
  else
    let '(int, nint, after_int) := digits 10 l 0 0 in
    let '(all, nfrac, after_frac) :=
      match after_int with
      | 46%N :: r => digits 10 r int 0
      | _ => (int, 0%Z, after_int)
      end in
    let dotted :=
      match after_int with
      | 46%N :: _ => true
      | _ => false
      end in
    if ((nint + nfrac =? 0)%Z) then nan
    else
      match exponent_part after_frac with
      | Some ex =>
          if (all =? 0)%Z then zero
          else of_decimal all (ex - (if dotted then nfrac else 0))
      | None => nan
      end.

(** StringToNumber. *)
Definition of_string (s : string) : float :=
  match trim (Str.code_points s) with
  | [] => zero
  | 48%N :: 120%N :: r | 48%N :: 88%N :: r => integer_literal 16 r
  | 48%N :: 111%N :: r | 48%N :: 79%N :: r => integer_literal 8 r
  | 48%N :: 98%N :: r | 48%N :: 66%N :: r => integer_literal 2 r
  | 43%N :: r => unsigned_decimal r
  | 45%N :: r => signed true (unsigned_decimal r)
  | l => unsigned_decimal l
  end.

End Num.

(* ================================================================== *)
(** ** JavaScript values and the coercions the handlers use *)

Module JS.

(** A value of type [any] as the handlers meet it: the result of
    [JSON.parse] (no [VUndef] inside), a missing property ([VUndef]), or
    an object literal built by a handler (whose properties may hold
    [VUndef]).  Objects list their own properties in enumeration
    order. *)
Inductive value : Type :=
| VUndef
| VNull
| VBool (b : bool)
| VNum (x : float)
| VStr (s : string)
| VArr (items : list value)
| VObj (props : list (string * value)).

(** What a [throw] carries: an [Error] instance with its [message], or
    some value that is not an [Error]. *)
Inductive thrown : Type :=
| ErrorObject (message : string)
| OtherValue.

(** Outcome of evaluating an expression: abrupt ([inl]) or normal. *)
Definition completion (A : Type) : Type := (thrown + A)%type.

Definition TypeError {A} (message : string) : completion A :=
  inl (ErrorObject message).

Definition andThen {A B} (c : completion A) (k : A -> completion B)
  : completion B :=
  match c with
  | inl e => inl e
  | inr a => k a
  end.

(** ToBoolean. *)
Definition truthy (v : value) : bool :=
  match v with
  | VUndef | VNull => false
  | VBool b => b
  | VNum x => negb (PrimFloat.eqb x 0%float || PrimFloat.is_nan x)
  | VStr s => negb (String.eqb s "")
  | VArr _ | VObj _ => true
  end.

Definition typeof (v : value) : string :=
  match v with
  | VUndef => "undefined"
  | VNull => "object"
  | VBool _ => "boolean"
  | VNum _ => "number"
  | VStr _ => "string"
  | VArr _ | VObj _ => "object"
  end.

(** Own-property lookup; [VUndef] when the object has no such key. *)
Fixpoint own (props : list (string * value)) (k : string) : value :=
  match props with
  | [] => VUndef
  | (k', v) :: rest => if String.eqb k' k then v else own rest k
  end.

Fixpoint has_own (props : list (string * value)) (k : string) : bool :=
  match props with
  | [] => false
  | (k', _) :: rest => String.eqb k' k || has_own rest k
  end.

(** The property read [v.k], for the names the handlers read: data
    fields and [length].  None of them is defined on a built-in
    prototype other than [length] on arrays and strings, so a read that
    finds no own property yields [undefined]; a read on [undefined] or
    [null] throws. *)
Definition get (v : value) (k : string) : completion value :=
  match v with
  | VUndef =>
      TypeError ("Cannot read properties of undefined (reading '"
                 ++ k ++ "')")
  | VNull =>
      TypeError ("Cannot read properties of null (reading '" ++ k ++ "')")
  | VObj props => inr (own props k)
  | VArr items =>
      inr (if String.eqb k "length"
           then VNum (Num.of_nat (List.length items)) else VUndef)
  | VStr s =>
      inr (if String.eqb k "length"
           then VNum (Num.of_nat (Str.utf16_length s)) else VUndef)
  | VBool _ | VNum _ => inr VUndef
  end.

(** The optional read [v?.k]. *)
Definition get_opt (v : value) (k : string) : completion value :=
  match v with
  | VUndef | VNull => inr VUndef
  | _ => get v k
  end.

(** ToString.  An array is joined with commas, [null] and [undefined]
    elements giving the empty string.  A plain object has no callable
    own [toString], so one that carries an own [toString] key cannot be
    converted; any other prints as [[object Object]]. *)
Fixpoint ToString (v : value) : completion string :=
  match v with
  | VUndef => inr "undefined"
  | VNull => inr "null"
  | VBool true => inr "true"
  | VBool false => inr "false"
  | VNum x => inr (Num.toString x)
  | VStr s => inr s
  | VArr items =>
      (fix join_items (l : list value) : completion string :=
         match l with
         | [] => inr ""
         | x :: rest =>
             andThen
               (match x with
                | VUndef | VNull => inr ""
                | _ => ToString x
                end)
               (fun sx =>
                  match rest with
                  | [] => inr sx
                  | _ :: _ =>
                      andThen (join_items rest)
                        (fun sr => inr (sx ++ "," ++ sr))
                  end)
         end) items
  | VObj props =>
      if has_own props "toString"
      then TypeError "Cannot convert object to primitive value"
      else inr "[object Object]"
  end.

(** The method call [v.toString()] written as [expr.toString()]. *)
Definition call_toString (expr : string) (v : value) : completion string :=
  match v with
  | VUndef | VNull => andThen (get v "toString") (fun _ => inr "")
  | VObj props =>
      if has_own props "toString"
      then TypeError (expr ++ ".toString is not a function")
      else inr "[object Object]"
  | _ => ToString v
  end.

(** [v === n] for a number [n]. *)
Definition strict_eq_num (v : value) (n : float) : bool :=
  match v with
  | VNum x => PrimFloat.eqb x n
  | _ => false
  end.

(** [v.length === 0].  The length of an array or of a string is the
    number of its elements, and the number of a count is zero only for
    the count zero; any other value is compared through its [length]
    property. *)
Definition length_is_zero (v : value) : completion bool :=
  match v with
  | VArr items =>
      inr (match items with
           | [] => true
           | _ :: _ => false
           end)
  | VStr s => inr (String.eqb s "")
  | _ => andThen (get v "length") (fun len => inr (strict_eq_num len 0%float))
  end.

(** [v === s] for a string [s]. *)
Definition strict_eq_str (v : value) (s : string) : bool :=
  match v with
  | VStr s' => String.eqb s' s
  | _ => false
  end.

(** [a || b] on values. *)
Definition or_else (a b : value) : value := if truthy a then a else b.

(** [v.map(f).join(sep)] written on the expression [expr], for a
    callback producing strings. *)
Fixpoint each (f : value -> completion string) (items : list value)
  : completion (list string) :=
  match items with
  | [] => inr []
  | x :: rest =>
      andThen (f x) (fun sx =>
      andThen (each f rest) (fun sr => inr (sx :: sr)))
  end.

Definition map_join (expr : string) (v : value)
           (f : value -> completion string) (sep : string)
  : completion string :=
  match v with
  | VUndef | VNull => andThen (get v "map") (fun _ => inr "")
  | VArr items => andThen (each f items) (fun l => inr (Str.join sep l))
  | _ => TypeError (expr ++ ".map is not a function")
  end.

(** ToNumber.  Arrays and objects go through ToPrimitive with hint
    number: the inherited [valueOf] returns the object itself, so the
    result is that of [toString], read as a numeric literal. *)
Definition ToNumber (v : value) : completion float :=
  match v with
  | VUndef => inr nan
  | VNull => inr zero
  | VBool true => inr one
  | VBool false => inr zero
  | VNum x => inr x
  | VStr s => inr (Num.of_string s)
  | VArr _ | VObj _ => andThen (ToString v) (fun s => inr (Num.of_string s))
  end.

(** *** JSON.stringify *)

Definition hex_digit (n : N) : ascii :=
  ascii_of_N (if (n <? 10)%N then 48 + n else 87 + n).

(** QuoteJSONString without the surrounding quotes. *)
Fixpoint escape (s : string) : string :=
  match s with
  | EmptyString => ""
  | String c rest =>
      let n := N_of_ascii c in
      let piece :=
        if (n =? 8)%N then "\b"
        else if (n =? 9)%N then "\t"
        else if (n =? 10)%N then "\n"
        else if (n =? 12)%N then "\f"
        else if (n =? 13)%N then "\r"
        else if (n =? 34)%N then String "\" (String c "")
        else if (n =? 92)%N then "\\"
        else if (n <? 32)%N then
          "\u00" ++ String (hex_digit (n / 16)) (String (hex_digit (n mod 16)) "")
        else String c "" in
      piece ++ escape rest
  end.

Definition quote (s : string) : string :=
  String (ascii_of_N 34) (escape s ++ String (ascii_of_N 34) "").

Definition wrap (opening closing gap indent stepback : string)
           (partial : list string) : string :=
  match partial with
  | [] => opening ++ closing
  | _ :: _ =>
      if String.eqb gap "" then
        opening ++ Str.join "," partial ++ closing
      else
        let nl := String (ascii_of_N 10) "" in
        opening ++ nl ++ indent
        ++ Str.join ("," ++ nl ++ indent) partial
        ++ nl ++ stepback ++ closing
  end.

(** SerializeJSONProperty with the gap [gap] at indentation
    [stepback]; [None] stands for [undefined] (nothing to write). *)
Fixpoint serialize (gap stepback : string) (v : value) : option string :=
  let indent := stepback ++ gap in
  match v with
  | VUndef => None
  | VNull => Some "null"
  | VBool true => Some "true"
  | VBool false => Some "false"
  | VNum x =>
      Some (match Prim2SF x with
            | S754_nan | S754_infinity _ => "null"
            | _ => Num.toString x
            end)
  | VStr s => Some (quote s)
  | VArr items =>
      Some (wrap "[" "]" gap indent stepback
              (map (fun x => match serialize gap indent x with
                             | Some t => t
                             | None => "null"
                             end) items))
  | VObj props =>
      Some (wrap "{" "}" gap indent stepback
              ((fix members (l : list (string * value)) : list string :=
                  match l with
                  | [] => []
                  | (k, x) :: rest =>
                      match serialize gap indent x with
                      | Some t =>
                          (quote k ++ ":"
                           ++ (if String.eqb gap "" then "" else " ") ++ t)
                          :: members rest
                      | None => members rest
                      end
                  end) props))
  end.

(** [JSON.stringify(v)]. *)
Definition stringify (v : value) : option string := serialize "" "" v.

(** [JSON.stringify(v, null, 2)]. *)
Definition stringify_pretty (v : value) : option string :=
  serialize "  " "" v.

(** The text a template literal gives for [JSON.stringify(...)]. *)
Definition template_of (o : option string) : string :=
  match o with
  | Some t => t
  | None => "undefined"
  end.

End JS.

(* ================================================================== *)
(** ** URLSearchParams *)

Module URLSearchParams.

Definition t : Type := list (string * string).

Definition empty : t := [].

(** [params.set(name, value)]: overwrite the first pair called [name]
    and drop the others, or append. *)
Fixpoint remove (name : string) (q : t) : t :=
  match q with
  | [] => []
  | (k, v) :: rest =>
      if String.eqb k name then remove name rest
      else (k, v) :: remove name rest
  end.

Fixpoint set (q : t) (name value : string) : t :=
  match q with
  | [] => [(name, value)]
  | (k, v) :: rest =>
      if String.eqb k name then (k, value) :: remove name rest
      else (k, v) :: set rest name value
  end.

Definition hex_upper (n : N) : ascii :=
  ascii_of_N (if (n <? 10)%N then 48 + n else 55 + n).

(** application/x-www-form-urlencoded byte serializer. *)
Fixpoint encode (s : string) : string :=
  match s with
  | EmptyString => ""
  | String c rest =>
      let n := N_of_ascii c in
      let keep :=
        ((48 <=? n) && (n <=? 57) || (65 <=? n) && (n <=? 90)
         || (97 <=? n) && (n <=? 122)
         || (n =? 42) || (n =? 45) || (n =? 46) || (n =? 95))%N in
      (if keep then String c ""
       else if (n =? 32)%N then "+"
       else String "%" (String (hex_upper (n / 16))
                          (String (hex_upper (n mod 16)) "")))
      ++ encode rest
  end.

(** [params.toString()], also what a template literal makes of it. *)
Definition toString (q : t) : string :=
  Str.join "&" (map (fun kv => encode (fst kv) ++ "=" ++ encode (snd kv)) q).

Definition has (q : t) (name : string) : bool :=
  existsb (fun kv => String.eqb (fst kv) name) q.

End URLSearchParams.

(* ================================================================== *)
(** ** The tool registry ([const tools: Tool[]]) *)

Module Registry.

(** A JSON-schema node as the table writes them. *)
Inductive SchemaNode : Type :=
| Schema (type : string)
         (description : option string)
         (format : option string)
         (default : option JS.value)
         (enum : option (list string))
         (properties : option (list (string * SchemaNode)))
         (required : option (list string)).

Record Tool : Type := mkTool
  { name : string;
    description : string;
    inputSchema : SchemaNode }.

Definition required_of (s : SchemaNode) : list string :=
  match s with
  | Schema _ _ _ _ _ _ (Some r) => r
  | Schema _ _ _ _ _ _ None => []
  end.

Definition properties_of (s : SchemaNode) : list (string * SchemaNode) :=
  match s with
  | Schema _ _ _ _ _ (Some p) _ => p
  | Schema _ _ _ _ _ None _ => []
  end.

Definition default_of (s : SchemaNode) : option JS.value :=
  match s with
  | Schema _ _ _ d _ _ _ => d
  end.

(** Shorthands for the shapes of node that occur in the table. *)
Definition str (d : string) : SchemaNode :=
  Schema "string" (Some d) None None None None None.
Definition str_format (d f : string) : SchemaNode :=
  Schema "string" (Some d) (Some f) None None None None.
Definition str_enum (d : string) (e : list string) : SchemaNode :=
  Schema "string" (Some d) None None (Some e) None None.
Definition num (d : string) : SchemaNode :=
  Schema "number" (Some d) None None None None None.
Definition num_default (d : string) (v : float) : SchemaNode :=
  Schema "number" (Some d) None (Some (JS.VNum v)) None None None.
Definition bool_default (d : string) (v : bool) : SchemaNode :=
  Schema "boolean" (Some d) None (Some (JS.VBool v)) None None None.
Definition bare (ty : string) (f : option string) : SchemaNode :=
  Schema ty None f None None None None.
Definition obj (d : option string) (p : list (string * SchemaNode))
           (r : option (list string)) : SchemaNode :=
  Schema "object" d None None None (Some p) r.

Definition pound : string :=
  String (ascii_of_N 194) (String (ascii_of_N 163) "").

Definition tools : list Tool :=
  [ mkTool "list_customers"
      "List customers from GoCardless. Useful for finding existing customers before creating payments."
      (obj None
         [ ("limit", num_default
              "Maximum number of customers to return (default: 50, max: 500)"
              50%float);
           ("after", str "Cursor for pagination - get customers after this ID") ]
         None);
    mkTool "create_customer"
      "Create a new customer in GoCardless. Required before setting up payments."
      (obj None
         [ ("email", str_format "Customer email address" "email");
           ("given_name", str "Customer first name");
           ("family_name", str "Customer last name");
           ("company_name", str "Company name (optional)");
           ("address_line1", str "First line of address");
           ("city", str "City");
           ("postal_code", str "Postal/ZIP code");
           ("country_code", str "Two-letter country code (e.g., GB, US)") ]
         (Some ["email"; "given_name"; "family_name"]));
    mkTool "get_customer"
      "Get details of a specific customer by their ID."
      (obj None
         [ ("customer_id", str "The GoCardless customer ID") ]
         (Some ["customer_id"]));
    mkTool "list_customer_bank_accounts"
      "List bank accounts (mandates) for a specific customer."
      (obj None
         [ ("customer_id", str "The GoCardless customer ID") ]
         (Some ["customer_id"]));
    mkTool "create_redirect_flow"
      "Create a redirect flow to collect customer bank details. This generates a URL where customers can securely enter their bank account information."
      (obj None
         [ ("description", str "Description of what the payment is for");
           ("session_token", str "Unique session token to prevent CSRF attacks");
           ("success_redirect_url",
             str_format "URL to redirect to after successful setup" "uri");
           ("prefilled_customer",
             obj (Some "Pre-fill customer information")
               [ ("given_name", bare "string" None);
                 ("family_name", bare "string" None);
                 ("email", bare "string" (Some "email"));
                 ("company_name", bare "string" None) ]
               None) ]
         (Some ["description"; "session_token"; "success_redirect_url"]));
    mkTool "list_payments"
      "List payments from GoCardless. Useful for checking payment status and history."
      (obj None
         [ ("limit", num_default
              "Maximum number of payments to return (default: 50)" 50%float);
           ("customer", str "Filter by customer ID");
           ("status", str_enum "Filter by payment status"
              ["pending_customer_approval"; "pending_submission";
               "submitted"; "confirmed"; "paid_out"; "cancelled";
               "customer_approval_denied"; "failed"; "charged_back"]) ]
         None);
    mkTool "create_billing_request"
      "Create a billing request for collecting payments. This is the modern GoCardless approach for payment collection that combines mandate setup and payment creation."
      (obj None
         [ ("amount_cents",
             num ("Payment amount in cents/pence (e.g., 2999 for "
                  ++ pound ++ "29.99)"));
           ("currency", str_enum "Payment currency (e.g., GBP, EUR, USD)"
              ["GBP"; "EUR"; "USD"; "SEK"; "DKK"; "AUD"; "NZD"]);
           ("description", str "Description of what the payment is for");
           ("customer_email", str_format "Customer email address" "email");
           ("customer_given_name", str "Customer first name");
           ("customer_family_name", str "Customer last name");
           ("customer_company_name", str "Customer company name (optional)");
           ("payment_reference", str "Reference for the payment (optional)") ]
         (Some ["amount_cents"; "currency"; "description"; "customer_email";
                "customer_given_name"; "customer_family_name"]));
    mkTool "create_billing_request_flow"
      "Create a billing request flow to collect customer details and authorize payments. This generates a URL where customers can complete the entire payment setup process."
      (obj None
         [ ("billing_request_id",
             str "The ID of the billing request to create a flow for");
           ("redirect_uri",
             str_format "URL to redirect customer to after completing the flow"
               "uri");
           ("exit_uri",
             str_format
               "URL to redirect customer to if they exit the flow (optional)"
               "uri");
           ("session_token", str "Unique session token to prevent CSRF attacks");
           ("show_redirect_buttons",
             bool_default
               "Whether to show redirect buttons in the flow (default: true)"
               true) ]
         (Some ["billing_request_id"; "redirect_uri"; "session_token"]));
    mkTool "get_billing_request"
      "Get details of a specific billing request by its ID, including status and any associated payments."
      (obj None
         [ ("billing_request_id", str "The GoCardless billing request ID") ]
         (Some ["billing_request_id"]));
    mkTool "list_billing_requests"
      "List billing requests from GoCardless. Useful for monitoring payment collection status."
      (obj None
         [ ("limit", num_default
              "Maximum number of billing requests to return (default: 50)"
              50%float);
           ("status", str_enum "Filter by billing request status"
              ["pending"; "ready_to_fulfil"; "fulfilled"; "cancelled"]);
           ("customer", str "Filter by customer ID") ]
         None);
    mkTool "fulfil_billing_request"
      "Fulfil a billing request to create the actual payment. Call this after the customer has completed the billing request flow."
      (obj None
         [ ("billing_request_id",
             str "The GoCardless billing request ID to fulfil") ]
         (Some ["billing_request_id"])) ].

Definition tool_names : list string := map name tools.

(** The names the server is meant to offer, in table order. *)
Definition eleven_names : list string :=
  [ "list_customers"; "create_customer"; "get_customer";
    "list_customer_bank_accounts"; "create_redirect_flow";
    "list_payments"; "create_billing_request";
    "create_billing_request_flow"; "get_billing_request";
    "list_billing_requests"; "fulfil_billing_request" ].

Definition find (n : string) : option Tool :=
  List.find (fun t => String.eqb (name t) n) tools.

End Registry.

(* ================================================================== *)
(** ** The server: configuration, request helper, handlers, dispatcher *)

Module Server.

Import JS.

Declare Scope js_scope.
Delimit Scope js_scope with js.

(** Sequencing of expression evaluation: a throw aborts what follows. *)
Notation "'let*' x ':=' c 'in' k" := (andThen c (fun x => k))
  (at level 61, x name, c at next level, right associativity) : js_scope.

Local Open Scope js_scope.

Definition LF : string := String (ascii_of_N 10) "".

Definition bullet : string :=
  String (ascii_of_N 226) (String (ascii_of_N 128)
    (String (ascii_of_N 162) "")).

(** *** GOCARDLESS_CONFIG and getApiBaseUrl *)

Record Config : Type := mkConfig
  { environment : string;
    accessToken : string;
    version : string }.

(** [process.env.NAME || fallback]: an unset or empty variable gives
    the fallback. *)
Definition env_or (var : option string) (fallback : string) : string :=
  match var with
  | Some s => if String.eqb s "" then fallback else s
  | None => fallback
  end.

Definition GOCARDLESS_CONFIG (env_environment env_access_token : option string)
  : Config :=
  {| environment := env_or env_environment "sandbox";
     accessToken := env_or env_access_token "";
     version := "2015-07-06" |}.

Definition live_host : string := "https://api.gocardless.com".
Definition sandbox_host : string := "https://api-sandbox.gocardless.com".

Definition getApiBaseUrl (cfg : Config) : string :=
  if String.eqb (environment cfg) "live" then live_host else sandbox_host.

(** *** fetch and makeGoCardlessRequest *)

Record Request : Type := mkRequest
  { url : string;
    method : option string;
    headers : list (string * string);
    body : option string }.

(** What the helper looks at in a response; [json] is the outcome of
    [response.json()]. *)
Record Response : Type := mkResponse
  { status : Z;
    statusText : string;
    text : string;
    json : completion value }.

Inductive FetchOutcome : Type :=
| Rejects (e : thrown)
| Resolves (r : Response).

(** The backing service and the network, as seen through [fetch]. *)
Definition Upstream : Type := Request -> FetchOutcome.

Definition ok (r : Response) : bool :=
  ((200 <=? status r) && (status r <=? 299))%Z.

(** A handler step: given the upstream, the requests it issued, in
    order, and how it completed. *)
Definition M (A : Type) : Type := Upstream -> list Request * completion A.

Definition ret {A} (a : A) : M A := fun _ => ([], inr a).

Definition throw {A} (e : thrown) : M A := fun _ => ([], inl e).

Definition lift {A} (c : completion A) : M A := fun _ => ([], c).

Definition bind {A B} (m : M A) (k : A -> M B) : M B :=
  fun up =>
    match m up with
    | (sent, inl e) => (sent, inl e)
    | (sent, inr a) =>
        let '(sent', r) := k a up in ((sent ++ sent')%list, r)
    end.

Notation "x <- m ;; k" := (bind m (fun x => k))
  (at level 61, m at next level, right associativity) : js_scope.

Definition fetch (r : Request) : M Response :=
  fun up =>
    ([r], match up r with
          | Rejects e => inl e
          | Resolves resp => inr resp
          end).

(** The second argument of [makeGoCardlessRequest]. *)
Record Options : Type := mkOptions
  { opt_method : option string;
    opt_body : option string;
    opt_headers : list (string * string) }.

Definition no_options : Options := mkOptions None None [].

Definition POST (b : option string) : Options :=
  mkOptions (Some "POST") b [].

(** Object spread of header maps: a later key overwrites in place, a
    new key is appended. *)
Fixpoint put_header (hs : list (string * string)) (k v : string)
  : list (string * string) :=
  match hs with
  | [] => [(k, v)]
  | (k', v') :: rest =>
      if String.eqb k' k then (k', v) :: rest
      else (k', v') :: put_header rest k v
  end.

Definition spread (base extra : list (string * string))
  : list (string * string) :=
  fold_left (fun hs kv => put_header hs (fst kv) (snd kv)) extra base.

Definition makeGoCardlessRequest (cfg : Config) (endpoint : string)
           (options : Options) : M value :=
  let url := getApiBaseUrl cfg ++ endpoint in
  response <- fetch
    {| url := url;
       method := opt_method options;
       headers :=
         spread [ ("Authorization", "Bearer " ++ accessToken cfg);
                  ("GoCardless-Version", version cfg);
                  ("Content-Type", "application/json") ]
                (opt_headers options);
       body := opt_body options |} ;;
  if negb (ok response) then
    throw (ErrorObject
             ("GoCardless API error: " ++ Str.of_Z (status response)
              ++ " " ++ statusText response ++ LF ++ text response))
  else lift (json response).

(** *** Tool results *)

Record ContentBlock : Type := mkBlock
  { type : string;
    block_text : string }.

(** [isError] is [None] where the object literal has no such key. *)
Record ToolResult : Type := mkResult
  { content : list ContentBlock;
    isError : option bool }.

Definition text_result (t : string) : ToolResult :=
  {| content := [ {| type := "text"; block_text := t |} ];
     isError := None |}.

Definition error_flagged (r : ToolResult) : bool :=
  match isError r with
  | Some true => true
  | _ => false
  end.

(** The text of the first content block. *)
Definition result_text (r : ToolResult) : string :=
  match content r with
  | b :: _ => block_text b
  | [] => ""
  end.

(** *** Pieces shared by the handlers *)

(** The interpolation [${v.k}]. *)
Definition field (v : value) (k : string) : completion string :=
  let* x := get v k in ToString x.

(** The interpolation [${(v / 100).toFixed(2)}]. *)
Definition cents (v : value) : completion string :=
  let* x := ToNumber v in
  inr (Num.toFixed (PrimFloat.div x 100%float) 2).

(** The interpolation [${r.payment_request?.k || fallback}]. *)
Definition payment_request_field (r : value) (k fallback : string)
  : completion string :=
  let* pr := get r "payment_request" in
  let* x := get_opt pr k in
  ToString (or_else x (VStr fallback)).

(** The interpolation
    [${r.payment_request?.amount
        ? (r.payment_request.amount / 100).toFixed(2) : 'N/A'}]. *)
Definition payment_request_amount (r : value) : completion string :=
  let* pr := get r "payment_request" in
  let* a := get_opt pr "amount" in
  if truthy a then
    let* pr' := get r "payment_request" in
    let* a' := get pr' "amount" in
    cents a'
  else inr "N/A".

(** [if (args?.limit) queryParams.set('limit', args.limit.toString())]. *)
Definition set_limit (args : value) (q : URLSearchParams.t)
  : completion URLSearchParams.t :=
  let* limit := get_opt args "limit" in
  if truthy limit then
    let* s := call_toString "args.limit" limit in
    inr (URLSearchParams.set q "limit" s)
  else inr q.

(** [if (args?.k && typeof args.k === 'string') queryParams.set(k, args.k)]. *)
Definition set_if_string (args : value) (k : string) (q : URLSearchParams.t)
  : completion URLSearchParams.t :=
  let* v := get_opt args k in
  if truthy v && String.eqb (typeof v) "string" then
    let* s := ToString v in
    inr (URLSearchParams.set q k s)
  else inr q.

(** Properties added to an object literal only under a condition. *)
Definition when (b : bool) (props : list (string * value))
  : list (string * value) :=
  if b then props else [].

(** *** case 'list_customers' *)

Definition list_customers_query (args : value)
  : completion URLSearchParams.t :=
  let* q := set_limit args URLSearchParams.empty in
  set_if_string args "after" q.

Definition render_customer (customer : value) : completion string :=
  let* given := field customer "given_name" in
  let* family := field customer "family_name" in
  let* email := field customer "email" in
  let* id := field customer "id" in
  let* created := field customer "created_at" in
  inr (bullet ++ " " ++ given ++ " " ++ family ++ " (" ++ email ++ ")" ++ LF
       ++ "  ID: " ++ id ++ LF
       ++ "  Created: " ++ created).

Definition list_customers_text (data : value) : completion string :=
  let* customers := get data "customers" in
  let* n := field customers "length" in
  let* rows :=
    map_join "data.customers" customers render_customer (LF ++ LF) in
  inr ("Found " ++ n ++ " customers:" ++ LF ++ LF ++ rows).

Definition case_list_customers (cfg : Config) (args : value)
  : M ToolResult :=
  q <- lift (list_customers_query args) ;;
  data <- makeGoCardlessRequest cfg
            ("/customers?" ++ URLSearchParams.toString q) no_options ;;
  t <- lift (list_customers_text data) ;;
  ret (text_result t).

(** *** case 'create_customer' *)

Definition create_customer_body (args : value) : completion value :=
  let* email := get args "email" in
  let* given := get args "given_name" in
  let* family := get args "family_name" in
  let* company := get args "company_name" in
  let company_props :=
    when (truthy company && String.eqb (typeof company) "string")
      [ ("company_name", company) ] in
  let* line1 := get args "address_line1" in
  let* address_props :=
    if truthy line1 && String.eqb (typeof line1) "string" then
      let* city := get args "city" in
      let* postal := get args "postal_code" in
      let* country := get args "country_code" in
      inr [ ("address_line1", line1);
            ("city", city);
            ("postal_code", postal);
            ("country_code", country) ]
    else inr [] in
  inr (VObj
    [ ("customers", VObj
        ([ ("email", email);
           ("given_name", given);
           ("family_name", family) ]
         ++ company_props ++ address_props)) ]).

Definition create_customer_text (data : value) : completion string :=
  let* customer := get data "customers" in
  let* given := field customer "given_name" in
  let* family := field customer "family_name" in
  let* email := field customer "email" in
  let* id := field customer "id" in
  let* created := field customer "created_at" in
  inr ("Successfully created customer:" ++ LF ++ LF
       ++ "Name: " ++ given ++ " " ++ family ++ LF
       ++ "Email: " ++ email ++ LF
       ++ "ID: " ++ id ++ LF
       ++ "Created: " ++ created).

Definition case_create_customer (cfg : Config) (args : value)
  : M ToolResult :=
  if negb (truthy args) then
    throw (ErrorObject "Arguments required for create_customer")
  else
    customerData <- lift (create_customer_body args) ;;
    data <- makeGoCardlessRequest cfg "/customers"
              (POST (stringify customerData)) ;;
    t <- lift (create_customer_text data) ;;
    ret (text_result t).

(** *** case 'get_customer' *)

Definition get_customer_text (data : value) : completion string :=
  let* customer := get data "customers" in
  let* given := field customer "given_name" in
  let* family := field customer "family_name" in
  let* email := field customer "email" in
  let* id := field customer "id" in
  let* created := field customer "created_at" in
  let* language := field customer "language" in
  let* metadata := get customer "metadata" in
  inr ("Customer Details:" ++ LF ++ LF
       ++ "Name: " ++ given ++ " " ++ family ++ LF
       ++ "Email: " ++ email ++ LF
       ++ "ID: " ++ id ++ LF
       ++ "Created: " ++ created ++ LF
       ++ "Language: " ++ language ++ LF
       ++ "Metadata: " ++ template_of (stringify_pretty metadata)).

Definition case_get_customer (cfg : Config) (args : value)
  : M ToolResult :=
  customer_id <- lift (get_opt args "customer_id") ;;
  if negb (truthy customer_id) then
    throw (ErrorObject "customer_id is required")
  else
    id <- lift (field args "customer_id") ;;
    data <- makeGoCardlessRequest cfg ("/customers/" ++ id) no_options ;;
    t <- lift (get_customer_text data) ;;
    ret (text_result t).

(** *** case 'list_customer_bank_accounts' *)

Definition render_account (account : value) : completion string :=
  let* ending := field account "account_number_ending" in
  let* id := field account "id" in
  let* bank := field account "bank_name" in
  let* enabled := get account "enabled" in
  inr (bullet ++ " Account ending in " ++ ending ++ LF
       ++ "  ID: " ++ id ++ LF
       ++ "  Bank: " ++ bank ++ LF
       ++ "  Status: " ++ (if truthy enabled then "Active" else "Inactive")).

Definition list_customer_bank_accounts_text (data : value)
  : completion string :=
  let* accounts := get data "customer_bank_accounts" in
  let* none := length_is_zero accounts in
  if none then
    inr "No bank accounts found for this customer. They may need to complete a redirect flow to add their bank details."
  else
    let* n := field accounts "length" in
    let* rows :=
      map_join "data.customer_bank_accounts" accounts render_account
        (LF ++ LF) in
    inr ("Found " ++ n ++ " bank account(s):" ++ LF ++ LF ++ rows).

Definition case_list_customer_bank_accounts (cfg : Config) (args : value)
  : M ToolResult :=
  customer_id <- lift (get_opt args "customer_id") ;;
  if negb (truthy customer_id) then
    throw (ErrorObject "customer_id is required")
  else
    id <- lift (field args "customer_id") ;;
    data <- makeGoCardlessRequest cfg
              ("/customer_bank_accounts?customer=" ++ id) no_options ;;
    t <- lift (list_customer_bank_accounts_text data) ;;
    ret (text_result t).

(** *** case 'create_redirect_flow' *)

Definition create_redirect_flow_body (args : value) : completion value :=
  let* description := get args "description" in
  let* session_token := get args "session_token" in
  let* success_url := get args "success_redirect_url" in
  let* prefilled := get args "prefilled_customer" in
  inr (VObj
    [ ("redirect_flows", VObj
        ([ ("description", description);
           ("session_token", session_token);
           ("success_redirect_url", success_url) ]
         ++ when (truthy prefilled && String.eqb (typeof prefilled) "object")
              [ ("prefilled_customer", prefilled) ])) ]).

Definition create_redirect_flow_text (data : value) : completion string :=
  let* redirectFlow := get data "redirect_flows" in
  let* id := field redirectFlow "id" in
  let* redirect_url := field redirectFlow "redirect_url" in
  inr ("Successfully created redirect flow:" ++ LF ++ LF
       ++ "ID: " ++ id ++ LF
       ++ "Redirect URL: " ++ redirect_url ++ LF ++ LF
       ++ "Send your customer to the redirect URL to collect their bank details. "
       ++ "After they complete the process, you'll need to complete the redirect flow "
       ++ "to create the mandate and customer bank account.").

Definition case_create_redirect_flow (cfg : Config) (args : value)
  : M ToolResult :=
  if negb (truthy args) then
    throw (ErrorObject "Arguments required for create_redirect_flow")
  else
    redirectFlowData <- lift (create_redirect_flow_body args) ;;
    data <- makeGoCardlessRequest cfg "/redirect_flows"
              (POST (stringify redirectFlowData)) ;;
    t <- lift (create_redirect_flow_text data) ;;
    ret (text_result t).

(** *** case 'list_payments' *)

Definition list_payments_query (args : value)
  : completion URLSearchParams.t :=
  let* q := set_limit args URLSearchParams.empty in
  let* q := set_if_string args "customer" q in
  set_if_string args "status" q.

Definition render_payment (payment : value) : completion string :=
  let* currency := field payment "currency" in
  let* amount := get payment "amount" in
  let* amount := cents amount in
  let* id := field payment "id" in
  let* status := field payment "status" in
  let* created := field payment "created_at" in
  let* description := get payment "description" in
  let* description := ToString (or_else description (VStr "No description")) in
  inr (bullet ++ " Amount: " ++ currency ++ " " ++ amount ++ LF
       ++ "  ID: " ++ id ++ LF
       ++ "  Status: " ++ status ++ LF
       ++ "  Created: " ++ created ++ LF
       ++ "  Description: " ++ description).

Definition list_payments_text (data : value) : completion string :=
  let* payments := get data "payments" in
  let* none := length_is_zero payments in
  if none then
    inr "No payments found matching the criteria."
  else
    let* n := field payments "length" in
    let* rows :=
      map_join "data.payments" payments render_payment (LF ++ LF) in
    inr ("Found " ++ n ++ " payment(s):" ++ LF ++ LF ++ rows).

Definition case_list_payments (cfg : Config) (args : value)
  : M ToolResult :=
  q <- lift (list_payments_query args) ;;
  data <- makeGoCardlessRequest cfg
            ("/payments?" ++ URLSearchParams.toString q) no_options ;;
  t <- lift (list_payments_text data) ;;
  ret (text_result t).

(** *** case 'create_billing_request' *)

Definition create_billing_request_body (args : value) : completion value :=
  let* amount_cents := get args "amount_cents" in
  let* currency := get args "currency" in
  let* description := get args "description" in
  let* customer_email := get args "customer_email" in
  let* payer_props :=
    if truthy customer_email then
      let* given := get args "customer_given_name" in
      let* family := get args "customer_family_name" in
      let* company := get args "customer_company_name" in
      inr [ ("payer", VObj
              ([ ("email", customer_email);
                 ("given_name", given);
                 ("family_name", family) ]
               ++ when (truthy company) [ ("company_name", company) ])) ]
    else inr [] in
  let* reference := get args "payment_reference" in
  inr (VObj
    [ ("billing_requests", VObj
        [ ("purpose_code", VStr "utility");
          ("payment_request", VObj
             ([ ("amount", amount_cents);
                ("currency", currency);
                ("description", description) ]
              ++ when (truthy reference) [ ("reference", reference) ]));
          ("mandate_request", VObj
             ([ ("currency", currency) ] ++ payer_props)) ]) ]).

Definition create_billing_request_text (args data : value)
  : completion string :=
  let* billingRequest := get data "billing_requests" in
  let* id := field billingRequest "id" in
  let* currency := field args "currency" in
  let* amount_cents := get args "amount_cents" in
  let* amount := cents amount_cents in
  let* status := field billingRequest "status" in
  let* description := field args "description" in
  let* created := field billingRequest "created_at" in
  inr ("Successfully created billing request:" ++ LF ++ LF
       ++ "ID: " ++ id ++ LF
       ++ "Amount: " ++ currency ++ " " ++ amount ++ LF
       ++ "Status: " ++ status ++ LF
       ++ "Description: " ++ description ++ LF
       ++ "Created: " ++ created ++ LF ++ LF
       ++ "Next step: Create a billing request flow to collect customer authorization.").

Definition case_create_billing_request (cfg : Config) (args : value)
  : M ToolResult :=
  if negb (truthy args) then
    throw (ErrorObject "Arguments required for create_billing_request")
  else
    billingRequestData <- lift (create_billing_request_body args) ;;
    data <- makeGoCardlessRequest cfg "/billing_requests"
              (POST (stringify billingRequestData)) ;;
    t <- lift (create_billing_request_text args data) ;;
    ret (text_result t).

(** *** case 'create_billing_request_flow' *)

Definition create_billing_request_flow_body (args : value)
  : completion value :=
  let* redirect_uri := get args "redirect_uri" in
  let* billing_request_id := get args "billing_request_id" in
  let* exit_uri := get args "exit_uri" in
  let* show := get args "show_redirect_buttons" in
  inr (VObj
    [ ("billing_request_flows", VObj
        ([ ("redirect_uri", redirect_uri);
           ("links", VObj [ ("billing_request", billing_request_id) ]) ]
         ++ when (truthy exit_uri) [ ("exit_uri", exit_uri) ]
         ++ when (match show with
                  | VUndef => false
                  | _ => true
                  end)
              [ ("show_redirect_buttons", show) ])) ]).

Definition create_billing_request_flow_text (data : value)
  : completion string :=
  let* flow := get data "billing_request_flows" in
  let* id := field flow "id" in
  let* authorisation_url := field flow "authorisation_url" in
  let* expires := field flow "expires_at" in
  inr ("Successfully created billing request flow:" ++ LF ++ LF
       ++ "Flow ID: " ++ id ++ LF
       ++ "Authorisation URL: " ++ authorisation_url ++ LF
       ++ "Expires: " ++ expires ++ LF ++ LF
       ++ "Send your customer to the authorisation URL to complete payment setup. "
       ++ "After they complete the process, you can fulfil the billing request to create the payment.").

Definition case_create_billing_request_flow (cfg : Config) (args : value)
  : M ToolResult :=
  if negb (truthy args) then
    throw (ErrorObject "Arguments required for create_billing_request_flow")
  else
    flowData <- lift (create_billing_request_flow_body args) ;;
    data <- makeGoCardlessRequest cfg "/billing_request_flows"
              (POST (stringify flowData)) ;;
    t <- lift (create_billing_request_flow_text data) ;;
    ret (text_result t).

(** *** case 'get_billing_request' *)

Definition get_billing_request_text (data : value) : completion string :=
  let* billingRequest := get data "billing_requests" in
  let* id := field billingRequest "id" in
  let* status := field billingRequest "status" in
  let* currency := payment_request_field billingRequest "currency" "N/A" in
  let* amount := payment_request_amount billingRequest in
  let* description :=
    payment_request_field billingRequest "description" "No description" in
  let* created := field billingRequest "created_at" in
  let* purpose := field billingRequest "purpose_code" in
  let* reference :=
    payment_request_field billingRequest "reference" "None" in
  let* metadata := get billingRequest "metadata" in
  inr ("Billing Request Details:" ++ LF ++ LF
       ++ "ID: " ++ id ++ LF
       ++ "Status: " ++ status ++ LF
       ++ "Amount: " ++ currency ++ " " ++ amount ++ LF
       ++ "Description: " ++ description ++ LF
       ++ "Created: " ++ created ++ LF
       ++ "Purpose: " ++ purpose ++ LF
       ++ "Reference: " ++ reference ++ LF
       ++ "Metadata: " ++ template_of (stringify_pretty metadata)).

Definition case_get_billing_request (cfg : Config) (args : value)
  : M ToolResult :=
  billing_request_id <- lift (get_opt args "billing_request_id") ;;
  if negb (truthy billing_request_id) then
    throw (ErrorObject "billing_request_id is required")
  else
    id <- lift (field args "billing_request_id") ;;
    data <- makeGoCardlessRequest cfg ("/billing_requests/" ++ id)
              no_options ;;
    t <- lift (get_billing_request_text data) ;;
    ret (text_result t).

(** *** case 'list_billing_requests' *)

Definition list_billing_requests_query (args : value)
  : completion URLSearchParams.t :=
  let* q := set_limit args URLSearchParams.empty in
  let* q := set_if_string args "status" q in
  set_if_string args "customer" q.

Definition render_billing_request (request : value) : completion string :=
  let* currency := payment_request_field request "currency" "N/A" in
  let* amount := payment_request_amount request in
  let* id := field request "id" in
  let* status := field request "status" in
  let* created := field request "created_at" in
  let* description :=
    payment_request_field request "description" "No description" in
  inr (bullet ++ " Amount: " ++ currency ++ " " ++ amount ++ LF
       ++ "  ID: " ++ id ++ LF
       ++ "  Status: " ++ status ++ LF
       ++ "  Created: " ++ created ++ LF
       ++ "  Description: " ++ description).

Definition list_billing_requests_text (data : value) : completion string :=
  let* requests := get data "billing_requests" in
  let* none := length_is_zero requests in
  if none then
    inr "No billing requests found matching the criteria."
  else
    let* n := field requests "length" in
    let* rows :=
      map_join "data.billing_requests" requests render_billing_request
        (LF ++ LF) in
    inr ("Found " ++ n ++ " billing request(s):" ++ LF ++ LF ++ rows).

Definition case_list_billing_requests (cfg : Config) (args : value)
  : M ToolResult :=
  q <- lift (list_billing_requests_query args) ;;
  data <- makeGoCardlessRequest cfg
            ("/billing_requests?" ++ URLSearchParams.toString q)
            no_options ;;
  t <- lift (list_billing_requests_text data) ;;
  ret (text_result t).

(** *** case 'fulfil_billing_request' *)

Definition fulfil_billing_request_text (data : value) : completion string :=
  let* billingRequest := get data "billing_requests" in
  let* id := field billingRequest "id" in
  let* status := field billingRequest "status" in
  let* status' := get billingRequest "status" in
  inr ("Successfully fulfilled billing request:" ++ LF ++ LF
       ++ "ID: " ++ id ++ LF
       ++ "Status: " ++ status ++ LF
       ++ "Payment created: "
       ++ (if strict_eq_str status' "fulfilled" then "Yes" else "No")
       ++ LF ++ LF
       ++ "The billing request has been processed and payment collection has been initiated.").

Definition case_fulfil_billing_request (cfg : Config) (args : value)
  : M ToolResult :=
  billing_request_id <- lift (get_opt args "billing_request_id") ;;
  if negb (truthy billing_request_id) then
    throw (ErrorObject "billing_request_id is required")
  else
    id <- lift (field args "billing_request_id") ;;
    data <- makeGoCardlessRequest cfg
              ("/billing_requests/" ++ id ++ "/actions/fulfil")
              (POST (stringify (VObj []))) ;;
    t <- lift (fulfil_billing_request_text data) ;;
    ret (text_result t).

(** *** The two request handlers *)

(** Handler of [ListToolsRequestSchema]. *)
Definition listTools : list Registry.Tool := Registry.tools.

(** [request.params.arguments]: a record, or absent. *)
Definition args_value (arguments : option (list (string * value))) : value :=
  match arguments with
  | Some props => VObj props
  | None => VUndef
  end.

(** The [switch (name)] statement. *)
Definition dispatch (cfg : Config) (name : string) (args : value)
  : M ToolResult :=
  if String.eqb name "list_customers" then
    case_list_customers cfg args
  else if String.eqb name "create_customer" then
    case_create_customer cfg args
  else if String.eqb name "get_customer" then
    case_get_customer cfg args
  else if String.eqb name "list_customer_bank_accounts" then
    case_list_customer_bank_accounts cfg args
  else if String.eqb name "create_redirect_flow" then
    case_create_redirect_flow cfg args
  else if String.eqb name "list_payments" then
    case_list_payments cfg args
  else if String.eqb name "create_billing_request" then
    case_create_billing_request cfg args
  else if String.eqb name "create_billing_request_flow" then
    case_create_billing_request_flow cfg args
  else if String.eqb name "get_billing_request" then
    case_get_billing_request cfg args
  else if String.eqb name "list_billing_requests" then
    case_list_billing_requests cfg args
  else if String.eqb name "fulfil_billing_request" then
    case_fulfil_billing_request cfg args
  else throw (ErrorObject ("Unknown tool: " ++ name)).

Definition missing_token_text : string :=
  "Error: GOCARDLESS_ACCESS_TOKEN environment variable is not set. Please configure your GoCardless access token.".

(** The body of the [try] block. *)
Definition try_block (cfg : Config) (name : string) (args : value)
  : M ToolResult :=
  if negb (truthy (VStr (accessToken cfg))) then
    ret (text_result missing_token_text)
  else dispatch cfg name args.

(** The [catch (error)] block. *)
Definition catch_block (error : thrown) : ToolResult :=
  {| content :=
       [ {| type := "text";
            block_text :=
              "Error: " ++ match error with
                           | ErrorObject message => message
                           | OtherValue => "Unknown error occurred"
                           end |} ];
     isError := Some true |}.

(** Handler of [CallToolRequestSchema]: the requests sent to the
    upstream and the result returned to the caller. *)
Definition callTool (cfg : Config) (name : string)
           (arguments : option (list (string * value))) (up : Upstream)
  : list Request * ToolResult :=
  match try_block cfg name (args_value arguments) up with
  | (sent, inr result) => (sent, result)
  | (sent, inl error) => (sent, catch_block error)
  end.

End Server.

(* ================================================================== *)
(** * Properties *)

Import JS Server.
Local Open Scope js_scope.

(** ** Vocabulary *)

(** Every normal completion of the step is a single text block with no
    error flag. *)
Definition yields_text (m : M ToolResult) : Prop :=
  forall up r, snd (m up) = inr r -> exists t, r = text_result t.

(** The step never calls [fetch]. *)
Definition silent {A} (m : M A) : Prop := forall up, fst (m up) = [].

(** The request [makeGoCardlessRequest] hands to [fetch]. *)
Definition request_of (cfg : Config) (endpoint : string) (options : Options)
  : Request :=
  {| url := getApiBaseUrl cfg ++ endpoint;
     method := opt_method options;
     headers :=
       spread [ ("Authorization", "Bearer " ++ accessToken cfg);
                ("GoCardless-Version", version cfg);
                ("Content-Type", "application/json") ]
              (opt_headers options);
     body := opt_body options |}.

(** The caller supplied the argument [k]. *)
Definition supplied (arguments : option (list (string * value))) (k : string)
  : bool :=
  match arguments with
  | Some props => has_own props k
  | None => false
  end.

(** The arguments lack a field of the [required] list of the tool called
    [name]. *)
Definition omits_required (name : string)
           (arguments : option (list (string * value))) : bool :=
  match Registry.find name with
  | Some t =>
      existsb (fun k => negb (supplied arguments k))
        (Registry.required_of (Registry.inputSchema t))
  | None => false
  end.

(** The four cases that test their identifier argument before anything
    else. *)
Definition checks_id (name : string) : bool :=
  existsb (String.eqb name)
    [ "get_customer"; "list_customer_bank_accounts"; "get_billing_request";
      "fulfil_billing_request" ].

Definition no_arguments (arguments : option (list (string * value))) : bool :=
  match arguments with
  | Some _ => false
  | None => true
  end.

(** Values whose conversion to a string or a number cannot throw. *)
Definition scalar (v : value) : bool :=
  match v with
  | VArr _ | VObj _ => false
  | _ => true
  end.


(** Sample data for the concrete runs below. *)
Definition sample_config : Config := GOCARDLESS_CONFIG None (Some "token").




Definition answer (code : Z) (reason : string) (data : value) : Response :=
  mkResponse code reason "" (inr data).

(** The request site of each case of the switch: the endpoint and the
    options it passes to [makeGoCardlessRequest]. *)
Inductive Site : string -> string -> Options -> Prop :=
| site_list_customers (q : URLSearchParams.t) :
    Site "list_customers"
      ("/customers?" ++ URLSearchParams.toString q) no_options
| site_create_customer (customerData : value) :
    Site "create_customer" "/customers" (POST (stringify customerData))
| site_get_customer (id : string) :
    Site "get_customer" ("/customers/" ++ id) no_options
| site_list_customer_bank_accounts (id : string) :
    Site "list_customer_bank_accounts"
      ("/customer_bank_accounts?customer=" ++ id) no_options
| site_create_redirect_flow (redirectFlowData : value) :
    Site "create_redirect_flow" "/redirect_flows"
      (POST (stringify redirectFlowData))
| site_list_payments (q : URLSearchParams.t) :
    Site "list_payments"
      ("/payments?" ++ URLSearchParams.toString q) no_options
| site_create_billing_request (billingRequestData : value) :
    Site "create_billing_request" "/billing_requests"
      (POST (stringify billingRequestData))
| site_create_billing_request_flow (flowData : value) :
    Site "create_billing_request_flow" "/billing_request_flows"
      (POST (stringify flowData))
| site_get_billing_request (id : string) :
    Site "get_billing_request" ("/billing_requests/" ++ id) no_options
| site_list_billing_requests (q : URLSearchParams.t) :
    Site "list_billing_requests"
      ("/billing_requests?" ++ URLSearchParams.toString q) no_options
| site_fulfil_billing_request (id : string) :
    Site "fulfil_billing_request"
      ("/billing_requests/" ++ id ++ "/actions/fulfil")
      (POST (stringify (VObj []))).

(** The step calls [fetch] once at most. *)
Definition at_most_one {A} (m : M A) : Prop :=
  forall up, (List.length (fst (m up)) <= 1)%nat.

(** The argument names the input schema of the tool declares. *)
Definition declared (name : string) : list string :=
  match Registry.find name with
  | Some t => map fst (Registry.properties_of (Registry.inputSchema t))
  | None => []
  end.

(** The value is a string other than the empty one. *)
Definition nonempty_string (v : value) : bool :=
  match v with
  | VStr s => negb (String.eqb s "")
  | _ => false
  end.

(** The list-style tools with their path and, in the order the handler
    tests them, their string filters. *)
Definition list_filters : list (string * string * list string) :=
  [ ("list_customers", "/customers", ["after"]);
    ("list_payments", "/payments", ["customer"; "status"]);
    ("list_billing_requests", "/billing_requests", ["status"; "customer"]) ].

(** The [if (args?.k && typeof args.k === 'string')] lines of a listing,
    one after the other. *)
Fixpoint add_filters (args : value) (ks : list string) (q : URLSearchParams.t)
  : completion URLSearchParams.t :=
  match ks with
  | [] => inr q
  | k :: rest =>
      andThen (set_if_string args k q) (fun q' => add_filters args rest q')
  end.

(** The four tools that take one identifier: the argument that holds it
    and what the handler writes before and after it in the endpoint. *)
Definition id_routes : list (string * string * string * string) :=
  [ ("get_customer", "customer_id", "/customers/", "");
    ("list_customer_bank_accounts", "customer_id",
       "/customer_bank_accounts?customer=", "");
    ("get_billing_request", "billing_request_id", "/billing_requests/", "");
    ("fulfil_billing_request", "billing_request_id", "/billing_requests/",
       "/actions/fulfil") ].

(** First value listed under a header name. *)
Fixpoint find_header (hs : list (string * string)) (k : string)
  : option string :=
  match hs with
  | [] => None
  | (k', v) :: rest => if String.eqb k' k then Some v else find_header rest k
  end.

(** The headers [makeGoCardlessRequest] writes before the spread. *)
Definition default_headers (cfg : Config) : list (string * string) :=
  [ ("Authorization", "Bearer " ++ accessToken cfg);
    ("GoCardless-Version", version cfg);
    ("Content-Type", "application/json") ].

(** [undefined] or [null]. *)
Definition nullish (v : value) : bool :=
  match v with
  | VUndef | VNull => true
  | _ => false
  end.

(** A whole number of minor units written as units, a point and two
    digits. *)
Definition two_digits (n : nat) : string :=
  (if Nat.ltb n 10 then "0" else "") ++ Str.of_Z (Z.of_nat n).

Definition units_and_cents (n : nat) : string :=
  Str.of_Z (Z.of_nat (n / 100)) ++ "." ++ two_digits (n mod 100).

Definition cents_exact (n : nat) : bool :=
  match cents (VNum (Num.of_nat n)) with
  | inr s => String.eqb s (units_and_cents n)
  | inl _ => false
  end.

(** A billing request as [get_billing_request] may receive it. *)
Definition bare_billing_request : value :=
  VObj [ ("billing_requests",
          VObj [ ("id", VStr "BRQ0001");
                 ("status", VStr "pending");
                 ("created_at", VStr "2024-03-01T09:30:00.000Z");
                 ("purpose_code", VStr "utility");
                 ("metadata", VObj []) ]) ].

(** Property names of a schema node. *)
Definition property_names (s : Registry.SchemaNode) : list string :=
  map fst (Registry.properties_of s).

(** The required names of a tool are declared properties, and no
    property is declared twice. *)
Definition schema_consistent (t : Registry.Tool) : bool :=
  forallb
    (fun k => existsb (String.eqb k) (property_names (Registry.inputSchema t)))
    (Registry.required_of (Registry.inputSchema t))
  && (fix distinct (l : list string) : bool :=
        match l with
        | [] => true
        | k :: rest => negb (existsb (String.eqb k) rest) && distinct rest
        end) (property_names (Registry.inputSchema t)).

(** The key under which the answer to each tool nests its resource. *)
Definition envelope : list (string * string) :=
  [ ("list_customers", "customers");
    ("create_customer", "customers");
    ("get_customer", "customers");
    ("list_customer_bank_accounts", "customer_bank_accounts");
    ("create_redirect_flow", "redirect_flows");
    ("list_payments", "payments");
    ("create_billing_request", "billing_requests");
    ("create_billing_request_flow", "billing_request_flows");
    ("get_billing_request", "billing_requests");
    ("list_billing_requests", "billing_requests");
    ("fulfil_billing_request", "billing_requests") ].

(** The parsed body has nothing under [key]: it is [null], or not an
    object, or an object without that key or with [null] there. *)
Definition lacks (key : string) (data : value) : bool :=
  match get data key with
  | inl _ => true
  | inr v => nullish v
  end.

(** The step, whenever it sends a request that is answered with a 2xx
    body lacking [key], throws a [TypeError] of a property read. *)
Definition rejects_bare_body (key : string) (m : M ToolResult) : Prop :=
  forall up req resp data,
    In req (fst (m up)) ->
    up req = Resolves resp ->
    ok resp = true ->
    json resp = inr data ->
    lacks key data = true ->
    exists what,
      snd (m up) = inl (ErrorObject ("Cannot read properties of " ++ what)).

(** The tools whose request is a POST. *)
Definition posts (name : string) : bool :=
  existsb (String.eqb name)
    [ "create_customer"; "create_redirect_flow"; "create_billing_request";
      "create_billing_request_flow"; "fulfil_billing_request" ].

(** The message [makeGoCardlessRequest] throws for a non-2xx answer. *)
Definition api_error (r : Response) : string :=
  "GoCardless API error: " ++ Str.of_Z (status r) ++ " " ++ statusText r
  ++ LF ++ text r.

(** How a request that does not come back with a parsed body ends the
    step: with what [fetch] or [response.json()] rejected, or with the
    API error of a non-2xx answer. *)
Definition failure_of (outcome : FetchOutcome) : option thrown :=
  match outcome with
  | Rejects e => Some e
  | Resolves r =>
      if ok r then
        match json r with
        | inl e => Some e
        | inr _ => None
        end
      else Some (ErrorObject (api_error r))
  end.

(** The value of the argument [k]; [undefined] when the caller gave no
    such argument, or no arguments at all. *)
Definition argument (arguments : option (list (string * value))) (k : string)
  : value :=
  match arguments with
  | Some props => own props k
  | None => VUndef
  end.

(** The query parameters that the string filters [ks] make of the
    arguments: one pair for each filter given as a non-empty string, in
    the order of [ks], with the string as it was given. *)
Definition filter_pairs (arguments : option (list (string * value)))
           (ks : list string) : URLSearchParams.t :=
  flat_map (fun k =>
              match argument arguments k with
              | VStr s => if String.eqb s "" then [] else [(k, s)]
              | _ => []
              end) ks.

(** The [default] that the input schema of the tool [name] declares for
    its property [k]. *)
Definition declared_default (name k : string) : option value :=
  match Registry.find name with
  | Some t =>
      match List.find (fun kv => String.eqb (fst kv) k)
              (Registry.properties_of (Registry.inputSchema t)) with
      | Some (_, s) => Registry.default_of s
      | None => None
      end
  | None => None
  end.









(** ** Facts about strings *)

Section StringFacts.

Lemma prefix_refl_app (s t : string) : String.prefix s (s ++ t) = true.
Proof.
  induction s as [| c s IH]; simpl.
  - destruct t; reflexivity.
  - destruct (ascii_dec c c) as [_ | ne]; [exact IH | contradiction].
Qed.

Lemma includes_of_prefix (s needle : string) :
  String.prefix needle s = true -> Str.includes s needle = true.
Proof.
  intros H. destruct s; cbn [Str.includes]; rewrite H; reflexivity.
Qed.

Lemma prefix_refl (s : string) : String.prefix s s = true.
Proof.
  induction s as [| c s IH]; simpl.
  - reflexivity.
  - destruct (ascii_dec c c) as [_ | ne]; [exact IH | contradiction].
Qed.

Lemma includes_self (s : string) : Str.includes s s = true.
Proof. apply includes_of_prefix, prefix_refl. Qed.

Lemma includes_head (needle t : string) :
  Str.includes (needle ++ t) needle = true.
Proof. apply includes_of_prefix, prefix_refl_app. Qed.

Lemma includes_skip (a s needle : string) :
  Str.includes s needle = true -> Str.includes (a ++ s) needle = true.
Proof.
  intros H. induction a as [| c a IH].
  - exact H.
  - change (String c a ++ s) with (String c (a ++ s)).
    cbn [Str.includes]. rewrite IH. apply orb_true_r.
Qed.

(** A needle that sits between any two strings is found. *)
Lemma includes_between (a needle b : string) :
  Str.includes (a ++ needle ++ b) needle = true.
Proof. apply includes_skip, includes_head. Qed.








End StringFacts.

(** ** Facts about handler steps *)

Section StepFacts.

Lemma yields_ret (t : string) : yields_text (ret (text_result t)).
Proof. intros up r H. inversion H. exists t. reflexivity. Qed.

Lemma yields_throw (e : thrown) : yields_text (throw e).
Proof. intros up r H. discriminate H. Qed.

Lemma yields_bind {A} (m : M A) (k : A -> M ToolResult) :
  (forall a, yields_text (k a)) -> yields_text (bind m k).
Proof.
  intros Hk up r. unfold bind.
  destruct (m up) as [sent [e | a]]; simpl.
  - discriminate.
  - specialize (Hk a up). destruct (k a up) as [sent' r']; simpl in *.
    intros H. apply Hk. exact H.
Qed.

Lemma silent_ret {A} (a : A) : silent (ret a).
Proof. intros up. reflexivity. Qed.

Lemma silent_throw {A} (e : thrown) : silent (@throw A e).
Proof. intros up. reflexivity. Qed.

Lemma silent_lift {A} (c : completion A) : silent (lift c).
Proof. intros up. reflexivity. Qed.

Lemma silent_bind {A B} (m : M A) (k : A -> M B) :
  silent m -> (forall a, silent (k a)) -> silent (bind m k).
Proof.
  intros Hm Hk up. unfold bind. specialize (Hm up).
  destruct (m up) as [sent [e | a]]; simpl in *.
  - exact Hm.
  - specialize (Hk a up). destruct (k a up) as [sent' r]; simpl in *.
    subst. reflexivity.
Qed.

(** A pure step in front changes nothing about what is sent. *)
Lemma bind_lift {A B} (c : completion A) (k : A -> M B) (up : Upstream) :
  bind (lift c) k up =
  match c with
  | inl e => ([], inl e)
  | inr a => k a up
  end.
Proof.
  unfold bind, lift. destruct c as [e | a]; [reflexivity |].
  destruct (k a up); reflexivity.
Qed.

(** The request helper calls [fetch] once, with [request_of]. *)
Lemma request_sent_once {B} (cfg : Config) (endpoint : string)
      (options : Options) (k : value -> M B) (up : Upstream) :
  (forall d, silent (k d)) ->
  fst (bind (makeGoCardlessRequest cfg endpoint options) k up)
  = [request_of cfg endpoint options].
Proof.
  intros Hk. unfold bind, makeGoCardlessRequest, fetch, bind.
  fold (request_of cfg endpoint options).
  destruct (up (request_of cfg endpoint options)) as [e | resp].
  - reflexivity.
  - destruct (negb (ok resp)).
    + reflexivity.
    + unfold lift. destruct (json resp) as [e | d].
      * reflexivity.
      * specialize (Hk d up). destruct (k d up) as [sent r]. simpl in *.
        subst. reflexivity.
Qed.

Lemma truthy_token (token : string) :
  token <> "" -> negb (truthy (VStr token)) = false.
Proof.
  intros H. simpl. apply String.eqb_neq in H. rewrite H. reflexivity.
Qed.

Lemma own_missing (props : list (string * value)) (k : string) :
  has_own props k = false -> own props k = VUndef.
Proof.
  induction props as [| [k' v] rest IH]; simpl; intros H.
  - reflexivity.
  - apply orb_false_iff in H. destruct H as [Hk Hrest].
    rewrite Hk. apply IH. exact Hrest.
Qed.

End StepFacts.

Ltac yields_text_steps :=
  repeat first
    [ apply yields_ret
    | apply yields_throw
    | apply yields_bind; intros ?
    | match goal with
      | |- yields_text (if ?b then _ else _) => destruct b
      end ].

Ltac silent_steps :=
  repeat first
    [ apply silent_ret
    | apply silent_throw
    | apply silent_lift
    | apply silent_bind; [| intros ?] ].

(** ** The registry *)

(** C7. [listTools] is a constant sequence of eleven definitions; their
    names, in the order of the table, are the eleven tool names, each
    occurs exactly once, and they are pairwise distinct. *)
Theorem listTools_names_once :
  map Registry.name listTools = Registry.eleven_names
  /\ List.length listTools = 11%nat
  /\ NoDup (map Registry.name listTools)
  /\ Forall (fun n => count_occ string_dec (map Registry.name listTools) n = 1%nat)
            Registry.eleven_names.
Proof.
  split; [reflexivity |]. split; [reflexivity |]. split.
  - change (map Registry.name listTools) with Registry.eleven_names.
    unfold Registry.eleven_names.
    repeat (constructor; [simpl; intuition discriminate |]). constructor.
  - change (map Registry.name listTools) with Registry.eleven_names.
    unfold Registry.eleven_names. repeat (constructor; [reflexivity |]). constructor.
Qed.

(** ** Base URL *)

(** C5. The base URL depends on the environment string alone; it is the
    live host exactly when that string is [live]; the sandbox host is
    chosen for [sandbox], [production], the empty string and an unset
    variable. *)
Theorem base_url_by_environment :
  forall (env : string) (token token' v v' : string) (var : option string),
    getApiBaseUrl (mkConfig env token v) = getApiBaseUrl (mkConfig env token' v')
    /\ (getApiBaseUrl (mkConfig env token v) = live_host <-> env = "live")
    /\ (getApiBaseUrl (mkConfig env token v) = sandbox_host <-> env <> "live")
    /\ getApiBaseUrl (GOCARDLESS_CONFIG (Some "live") var) = live_host
    /\ getApiBaseUrl (GOCARDLESS_CONFIG (Some "sandbox") var) = sandbox_host
    /\ getApiBaseUrl (GOCARDLESS_CONFIG (Some "production") var) = sandbox_host
    /\ getApiBaseUrl (GOCARDLESS_CONFIG (Some "") var) = sandbox_host
    /\ getApiBaseUrl (GOCARDLESS_CONFIG None var) = sandbox_host.
Proof.
  intros env token token' v v' var.
  split; [reflexivity |].
  unfold getApiBaseUrl; simpl.
  destruct (String.eqb_spec env "live") as [-> | Hne].
  - repeat split; try reflexivity; intros H; try discriminate H.
    exfalso. apply H. reflexivity.
  - repeat split; try reflexivity; intros H; try discriminate H;
      try contradiction. exact Hne.
Qed.

(** ** The dispatcher *)

(** The early return of the [try] block. *)
Lemma missing_token_text_of cfg name arguments up :
  accessToken cfg = "" ->
  fst (callTool cfg name arguments up) = []
  /\ snd (callTool cfg name arguments up) = text_result missing_token_text.
Proof.
  intros Htoken. unfold callTool, try_block. rewrite Htoken.
  split; reflexivity.
Qed.

(** C4. With an empty access token, whatever the tool name and the
    arguments, nothing is sent; the result carries no error flag and its
    text names the missing GOCARDLESS_ACCESS_TOKEN setting. *)
Theorem missing_token_short_circuit :
  forall cfg name arguments up,
    accessToken cfg = "" ->
    fst (callTool cfg name arguments up) = []
    /\ isError (snd (callTool cfg name arguments up)) = None
    /\ error_flagged (snd (callTool cfg name arguments up)) = false
    /\ result_text (snd (callTool cfg name arguments up)) = missing_token_text
    /\ Str.includes (result_text (snd (callTool cfg name arguments up)))
         "GOCARDLESS_ACCESS_TOKEN environment variable is not set" = true
    /\ Str.includes (result_text (snd (callTool cfg name arguments up)))
         "configure your GoCardless access token" = true.
Proof.
  intros cfg name arguments up Htoken.
  destruct (missing_token_text_of cfg name arguments up Htoken) as [Hsent E].
  rewrite Hsent, E.
  repeat split; vm_compute; reflexivity.
Qed.

Lemma missing_token_short_circuit_witness :
  accessToken (GOCARDLESS_CONFIG (Some "live") None) = ""
  /\ fst (callTool (GOCARDLESS_CONFIG (Some "live") None) "list_payments"
            (Some [("limit", VNum 5%float)]) (fun _ => Rejects OtherValue))
     = []
  /\ isError
       (snd (callTool (GOCARDLESS_CONFIG (Some "live") None) "list_payments"
               (Some [("limit", VNum 5%float)]) (fun _ => Rejects OtherValue)))
     = None.
Proof.
  split; [reflexivity |].
  pose proof (missing_token_short_circuit
                (GOCARDLESS_CONFIG (Some "live") None) "list_payments"
                (Some [("limit", VNum 5%float)]) (fun _ => Rejects OtherValue)
                eq_refl) as [Hsent [Hflag _]].
  split; [exact Hsent | exact Hflag].
Defined.

(** C6. With a token configured, a name outside the registry sends
    nothing and gives an error-flagged result whose text is
    [Error: Unknown tool: ] followed by that very name. *)
Theorem unknown_tool_is_error :
  forall cfg name arguments up,
    accessToken cfg <> "" ->
    ~ In name (map Registry.name listTools) ->
    fst (callTool cfg name arguments up) = []
    /\ error_flagged (snd (callTool cfg name arguments up)) = true
    /\ result_text (snd (callTool cfg name arguments up))
       = "Error: Unknown tool: " ++ name
    /\ Str.includes (result_text (snd (callTool cfg name arguments up))) name
       = true.
Proof.
  intros cfg name arguments up Htoken Hname.
  assert (E : callTool cfg name arguments up
              = ([], catch_block (ErrorObject ("Unknown tool: " ++ name)))).
  { unfold callTool, try_block. rewrite (truthy_token _ Htoken).
    unfold dispatch.
    repeat match goal with
           | |- context [String.eqb name ?s] =>
               destruct (String.eqb_spec name s) as [-> | _];
               [exfalso; apply Hname; simpl; tauto |]
           end.
    reflexivity. }
  rewrite E. simpl. repeat split.
  apply (includes_skip "Error: Unknown tool: " name name).
  apply includes_self.
Qed.

Lemma unknown_tool_is_error_witness :
  accessToken sample_config <> ""
  /\ ~ In "delete_customer" (map Registry.name listTools)
  /\ error_flagged
       (snd (callTool sample_config "delete_customer" None
               (fun _ => Rejects OtherValue))) = true
  /\ result_text
       (snd (callTool sample_config "delete_customer" None
               (fun _ => Rejects OtherValue)))
     = "Error: Unknown tool: delete_customer".
Proof.
  assert (Htoken : accessToken sample_config <> "") by (simpl; discriminate).
  assert (Hname : ~ In "delete_customer" (map Registry.name listTools))
    by (simpl; intuition discriminate).
  split; [exact Htoken |]. split; [exact Hname |].
  pose proof (unknown_tool_is_error sample_config "delete_customer" None
                (fun _ => Rejects OtherValue) Htoken Hname)
    as [_ [Hflag [Htext _]]].
  split; [exact Hflag | exact Htext].
Defined.

(** Every case of the switch, when it returns normally, returns one text
    block and no error flag. *)
Lemma try_block_yields_text (cfg : Config) (name : string) (args : value) :
  yields_text (try_block cfg name args).
Proof.
  unfold try_block. destruct (negb (truthy (VStr (accessToken cfg)))).
  - apply yields_ret.
  - unfold dispatch,
      case_list_customers, case_create_customer, case_get_customer,
      case_list_customer_bank_accounts, case_create_redirect_flow,
      case_list_payments, case_create_billing_request,
      case_create_billing_request_flow, case_get_billing_request,
      case_list_billing_requests, case_fulfil_billing_request.
    yields_text_steps.
Qed.

(** The two shapes a result of [callTool] can have. *)
Lemma callTool_shape (cfg : Config) (name : string)
      (arguments : option (list (string * value))) (up : Upstream) :
  (exists t, snd (callTool cfg name arguments up) = text_result t)
  \/ (exists e, snd (callTool cfg name arguments up) = catch_block e).
Proof.
  unfold callTool.
  pose proof (try_block_yields_text cfg name (args_value arguments) up) as H.
  destruct (try_block cfg name (args_value arguments) up) as [sent [e | r]].
  - right. exists e. reflexivity.
  - left. apply H. reflexivity.
Qed.

(** C9. Whatever the tool name, the arguments and the behaviour of the
    upstream (a parsed body, a non-2xx status, a rejected fetch, a body
    that is not JSON), the result holds exactly one content block, of
    type [text]. *)
Theorem exactly_one_text_block :
  forall cfg name arguments up,
    List.length (content (snd (callTool cfg name arguments up))) = 1%nat
    /\ Forall (fun b => type b = "text")
              (content (snd (callTool cfg name arguments up))).
Proof.
  intros cfg name arguments up.
  destruct (callTool_shape cfg name arguments up) as [[t E] | [e E]];
    rewrite E; simpl; split; try reflexivity;
    repeat constructor.
Qed.

(** C10. The text for a missing token starts with [Error: ] although the
    result carries no error flag; every error-flagged result starts with
    the same prefix; so there is an invocation whose text has the prefix
    while the flag is not set. *)
Theorem error_prefix_without_flag :
  (forall cfg name arguments up,
      accessToken cfg = "" ->
      Str.startsWith (result_text (snd (callTool cfg name arguments up)))
        "Error: " = true
      /\ error_flagged (snd (callTool cfg name arguments up)) = false)
  /\ (forall cfg name arguments up,
         error_flagged (snd (callTool cfg name arguments up)) = true ->
         Str.startsWith (result_text (snd (callTool cfg name arguments up)))
           "Error: " = true)
  /\ (exists cfg name arguments up,
         Str.startsWith (result_text (snd (callTool cfg name arguments up)))
           "Error: " = true
         /\ error_flagged (snd (callTool cfg name arguments up)) = false).
Proof.
  assert (H1 : forall cfg name arguments up,
             accessToken cfg = "" ->
             Str.startsWith (result_text (snd (callTool cfg name arguments up)))
               "Error: " = true
             /\ error_flagged (snd (callTool cfg name arguments up)) = false).
  { intros cfg name arguments up Htoken.
    destruct (missing_token_text_of cfg name arguments up Htoken) as [_ E].
    rewrite E. split; reflexivity. }
  split; [exact H1 |]. split.
  - intros cfg name arguments up Hflag.
    destruct (callTool_shape cfg name arguments up) as [[t E] | [e E]];
      rewrite E in *.
    + discriminate Hflag.
    + unfold Str.startsWith. simpl result_text. apply prefix_refl_app.
  - exists (GOCARDLESS_CONFIG None None), "get_customer", None,
      (fun _ => Rejects OtherValue).
    apply H1. reflexivity.
Qed.

(** ** Required fields *)

Section RequiredFields.

Variable cfg : Config.
Variable up : Upstream.
Hypothesis token_set : accessToken cfg <> "".

(** With a token, [callTool] runs the switch. *)
Lemma callTool_dispatch name arguments :
  callTool cfg name arguments up =
  match dispatch cfg name (args_value arguments) up with
  | (sent, inr result) => (sent, result)
  | (sent, inl error) => (sent, catch_block error)
  end.
Proof.
  unfold callTool, try_block. rewrite (truthy_token _ token_set).
  reflexivity.
Qed.

(** A case that starts by testing an identifier the caller left out
    throws before it sends anything. *)
Lemma id_guard_throws (k message : string) (props : list (string * value))
      (rest : M ToolResult) :
  has_own props k = false ->
  bind (lift (get_opt (VObj props) k))
    (fun id => if negb (truthy id) then throw (ErrorObject message) else rest)
    up
  = ([], inl (ErrorObject message)).
Proof.
  intros H. rewrite bind_lift. cbn [get_opt get].
  rewrite (own_missing _ _ H). reflexivity.
Qed.

Lemma create_customer_body_total props :
  exists b, create_customer_body (VObj props) = inr b.
Proof.
  unfold create_customer_body. cbn [get andThen].
  destruct (truthy (own props "address_line1")
            && String.eqb (typeof (own props "address_line1")) "string");
    eexists; reflexivity.
Qed.

Lemma create_redirect_flow_body_total props :
  exists b, create_redirect_flow_body (VObj props) = inr b.
Proof. unfold create_redirect_flow_body. eexists. reflexivity. Qed.

Lemma create_billing_request_body_total props :
  exists b, create_billing_request_body (VObj props) = inr b.
Proof.
  unfold create_billing_request_body. cbn [get andThen].
  destruct (truthy (own props "customer_email")); eexists; reflexivity.
Qed.

Lemma create_billing_request_flow_body_total props :
  exists b, create_billing_request_flow_body (VObj props) = inr b.
Proof. unfold create_billing_request_flow_body. eexists. reflexivity. Qed.

(** A create-style case given an arguments object sends its request,
    whatever the object holds. *)
Lemma create_case_sends (body : completion value) (endpoint : string)
      (render : value -> completion string) :
  (exists b, body = inr b) ->
  List.length
    (fst (bind (lift body)
            (fun b =>
               bind (makeGoCardlessRequest cfg endpoint (POST (stringify b)))
                 (fun data =>
                    bind (lift (render data))
                      (fun t => ret (text_result t))))
            up)) = 1%nat.
Proof.
  intros [b ->]. rewrite bind_lift. rewrite request_sent_once.
  - reflexivity.
  - intros d. silent_steps.
Qed.

End RequiredFields.

Lemma callTool_sent cfg name arguments up :
  accessToken cfg <> "" ->
  fst (callTool cfg name arguments up)
  = fst (dispatch cfg name (args_value arguments) up).
Proof.
  intros Htoken. rewrite (callTool_dispatch cfg up Htoken).
  destruct (dispatch cfg name (args_value arguments) up) as [sent [e | r]];
    reflexivity.
Qed.

Lemma callTool_thrown cfg name arguments up e :
  accessToken cfg <> "" ->
  dispatch cfg name (args_value arguments) up = ([], inl e) ->
  fst (callTool cfg name arguments up) = []
  /\ error_flagged (snd (callTool cfg name arguments up)) = true.
Proof.
  intros Htoken E. rewrite (callTool_dispatch cfg up Htoken), E.
  split; reflexivity.
Qed.

(** C1, as the code has it.  With a token configured and a required
    field left out: the four cases that take one identifier, and every
    case reached without an arguments object, send nothing and return an
    error-flagged result; a create-style case given an arguments object
    sends its request all the same. *)
Theorem required_fields_guard :
  forall cfg name arguments up,
    accessToken cfg <> "" ->
    In name (map Registry.name listTools) ->
    omits_required name arguments = true ->
    if checks_id name || no_arguments arguments
    then fst (callTool cfg name arguments up) = []
         /\ error_flagged (snd (callTool cfg name arguments up)) = true
    else List.length (fst (callTool cfg name arguments up)) = 1%nat.
Proof.
  intros cfg name arguments up Htoken Hin Homit.
  simpl in Hin.
  repeat (destruct Hin as [<- | Hin]); [.. | destruct Hin];
    try (vm_compute in Homit; discriminate Homit).
  - (* create_customer *)
    destruct arguments as [props |]; simpl.
    + rewrite (callTool_sent _ _ _ _ Htoken).
      apply create_case_sends, create_customer_body_total.
    + eapply callTool_thrown; [exact Htoken | reflexivity].
  - (* get_customer *)
    apply (callTool_thrown cfg _ _ _
             (ErrorObject "customer_id is required") Htoken).
    destruct arguments as [props |]; [| reflexivity].
    apply id_guard_throws.
    unfold omits_required in Homit. simpl in Homit.
    rewrite orb_false_r in Homit. apply negb_true_iff in Homit. exact Homit.
  - (* list_customer_bank_accounts *)
    apply (callTool_thrown cfg _ _ _
             (ErrorObject "customer_id is required") Htoken).
    destruct arguments as [props |]; [| reflexivity].
    apply id_guard_throws.
    unfold omits_required in Homit. simpl in Homit.
    rewrite orb_false_r in Homit. apply negb_true_iff in Homit. exact Homit.
  - (* create_redirect_flow *)
    destruct arguments as [props |]; simpl.
    + rewrite (callTool_sent _ _ _ _ Htoken).
      apply create_case_sends, create_redirect_flow_body_total.
    + eapply callTool_thrown; [exact Htoken | reflexivity].
  - (* create_billing_request *)
    destruct arguments as [props |]; simpl.
    + rewrite (callTool_sent _ _ _ _ Htoken).
      apply create_case_sends, create_billing_request_body_total.
    + eapply callTool_thrown; [exact Htoken | reflexivity].
  - (* create_billing_request_flow *)
    destruct arguments as [props |]; simpl.
    + rewrite (callTool_sent _ _ _ _ Htoken).
      apply create_case_sends, create_billing_request_flow_body_total.
    + eapply callTool_thrown; [exact Htoken | reflexivity].
  - (* get_billing_request *)
    apply (callTool_thrown cfg _ _ _
             (ErrorObject "billing_request_id is required") Htoken).
    destruct arguments as [props |]; [| reflexivity].
    apply id_guard_throws.
    unfold omits_required in Homit. simpl in Homit.
    rewrite orb_false_r in Homit. apply negb_true_iff in Homit. exact Homit.
  - (* fulfil_billing_request *)
    apply (callTool_thrown cfg _ _ _
             (ErrorObject "billing_request_id is required") Htoken).
    destruct arguments as [props |]; [| reflexivity].
    apply id_guard_throws.
    unfold omits_required in Homit. simpl in Homit.
    rewrite orb_false_r in Homit. apply negb_true_iff in Homit. exact Homit.
Qed.

Lemma required_fields_guard_witness :
  accessToken (GOCARDLESS_CONFIG None (Some "token")) <> ""
  /\ In "get_customer" (map Registry.name listTools)
  /\ omits_required "get_customer" (Some [("id", VStr "CU123")]) = true
  /\ fst (callTool (GOCARDLESS_CONFIG None (Some "token")) "get_customer"
            (Some [("id", VStr "CU123")]) (fun _ => Rejects OtherValue)) = []
  /\ error_flagged
       (snd (callTool (GOCARDLESS_CONFIG None (Some "token")) "get_customer"
               (Some [("id", VStr "CU123")]) (fun _ => Rejects OtherValue)))
     = true.
Proof.
  assert (Htoken : accessToken (GOCARDLESS_CONFIG None (Some "token")) <> "")
    by (simpl; discriminate).
  assert (Hin : In "get_customer" (map Registry.name listTools))
    by (simpl; tauto).
  assert (Homit : omits_required "get_customer" (Some [("id", VStr "CU123")])
                  = true) by reflexivity.
  split; [exact Htoken |]. split; [exact Hin |]. split; [exact Homit |].
  exact (required_fields_guard (GOCARDLESS_CONFIG None (Some "token"))
           "get_customer" (Some [("id", VStr "CU123")])
           (fun _ => Rejects OtherValue) Htoken Hin Homit).
Defined.

(** C1 fails as stated: [create_customer] called with an empty arguments
    object lacks all three required fields, yet the request goes out and,
    the upstream accepting it, the result is not error-flagged. *)
Lemma create_customer_without_required_fields :
  omits_required "create_customer" (Some []) = true
  /\ map url
       (fst (callTool (GOCARDLESS_CONFIG None (Some "token")) "create_customer"
               (Some [])
               (fun _ => Resolves
                  (mkResponse 201 "Created" ""
                     (inr (VObj [("customers",
                                  VObj [("id", VStr "CU123")])]))))))
     = ["https://api-sandbox.gocardless.com/customers"]
  /\ error_flagged
       (snd (callTool (GOCARDLESS_CONFIG None (Some "token")) "create_customer"
               (Some [])
               (fun _ => Resolves
                  (mkResponse 201 "Created" ""
                     (inr (VObj [("customers",
                                  VObj [("id", VStr "CU123")])]))))))
     = false.
Proof. repeat split. Qed.

(** ** Listing queries *)

Section Queries.

Lemma has_remove_other (q : URLSearchParams.t) (k n : string) :
  String.eqb k n = false ->
  URLSearchParams.has (URLSearchParams.remove k q) n = URLSearchParams.has q n.
Proof.
  intros Hkn. induction q as [| [k' v] rest IH]; [reflexivity |].
  cbn [URLSearchParams.remove].
  destruct (String.eqb_spec k' k) as [-> | Hne].
  - rewrite IH. unfold URLSearchParams.has at 2. simpl. rewrite Hkn.
    reflexivity.
  - unfold URLSearchParams.has in *. simpl. rewrite IH. reflexivity.
Qed.

(** Setting one parameter does not create another. *)
Lemma has_set_other (q : URLSearchParams.t) (k s n : string) :
  String.eqb k n = false ->
  URLSearchParams.has (URLSearchParams.set q k s) n = URLSearchParams.has q n.
Proof.
  intros Hkn. induction q as [| [k' v] rest IH].
  - unfold URLSearchParams.has. simpl. rewrite Hkn. reflexivity.
  - cbn [URLSearchParams.set].
    destruct (String.eqb k' k).
    + unfold URLSearchParams.has. simpl.
      fold (URLSearchParams.has (URLSearchParams.remove k rest) n).
      rewrite (has_remove_other rest k n Hkn). reflexivity.
    + unfold URLSearchParams.has in *. simpl. rewrite IH. reflexivity.
Qed.

Variable arguments : option (list (string * value)).

Lemma absent_argument (k : string) :
  supplied arguments k = false ->
  get_opt (args_value arguments) k = inr VUndef.
Proof.
  destruct arguments as [props |]; simpl; intros H.
  - rewrite (own_missing _ _ H). reflexivity.
  - reflexivity.
Qed.

(** Without a [limit] argument the first [if] leaves the parameters
    alone. *)
Lemma set_limit_absent (q : URLSearchParams.t) :
  supplied arguments "limit" = false ->
  set_limit (args_value arguments) q = inr q.
Proof.
  intros H. unfold set_limit. rewrite (absent_argument _ H). reflexivity.
Qed.

(** A string filter never throws, and either sets its own key or
    changes nothing. *)
Lemma set_if_string_cases (k : string) (q : URLSearchParams.t) :
  set_if_string (args_value arguments) k q = inr q
  \/ exists s, set_if_string (args_value arguments) k q
               = inr (URLSearchParams.set q k s).
Proof.
  unfold set_if_string.
  assert (E : exists v, get_opt (args_value arguments) k = inr v).
  { destruct arguments as [props |]; simpl; eexists; reflexivity. }
  destruct E as [v ->]. cbn [andThen].
  destruct v as [| | b | x | s | items | props]; cbn [truthy typeof];
    try (left; reflexivity).
  - rewrite andb_false_r. left. reflexivity.
  - rewrite andb_false_r. left. reflexivity.
  - destruct (negb (String.eqb s "")); cbn.
    + right. exists s. reflexivity.
    + left. reflexivity.
Qed.

Lemma set_if_string_keeps (k n : string) (q : URLSearchParams.t) :
  String.eqb k n = false ->
  exists q', set_if_string (args_value arguments) k q = inr q'
             /\ URLSearchParams.has q' n = URLSearchParams.has q n.
Proof.
  intros Hkn. destruct (set_if_string_cases k q) as [E | [s E]]; rewrite E.
  - exists q. split; reflexivity.
  - eexists. split; [reflexivity |]. apply has_set_other. exact Hkn.
Qed.

End Queries.

(** What a listing sends once its query is built. *)
Lemma list_case_sends cfg up (query : completion URLSearchParams.t)
      (path : string) (render : value -> completion string)
      (q : URLSearchParams.t) :
  query = inr q ->
  fst (bind (lift query)
         (fun q0 =>
            bind (makeGoCardlessRequest cfg
                    (path ++ URLSearchParams.toString q0) no_options)
              (fun data =>
                 bind (lift (render data)) (fun t => ret (text_result t))))
         up)
  = [request_of cfg (path ++ URLSearchParams.toString q) no_options].
Proof.
  intros ->. rewrite bind_lift. apply request_sent_once.
  intros d. silent_steps.
Qed.

(** *** The pairs a listing makes of its string filters *)

Section FilterPairs.
Variable arguments : option (list (string * value)).

Lemma get_argument (k : string) :
  get_opt (args_value arguments) k = inr (argument arguments k).
Proof. destruct arguments as [props |]; reflexivity. Qed.

(** What one [if (args?.k && typeof args.k === 'string')] line does. *)
Lemma set_if_string_argument (k : string) (q : URLSearchParams.t) :
  set_if_string (args_value arguments) k q
  = inr match argument arguments k with
        | VStr s => if String.eqb s "" then q else URLSearchParams.set q k s
        | _ => q
        end.
Proof.
  unfold set_if_string. rewrite get_argument. cbn [andThen].
  destruct (argument arguments k) as [| | b | x | s | items | props];
    cbn [truthy typeof]; try reflexivity.
  - rewrite andb_false_r. reflexivity.
  - rewrite andb_false_r. reflexivity.
  - destruct (String.eqb s ""); reflexivity.
Qed.

Lemma filter_pairs_in (ks : list string) (k v : string) :
  In (k, v) (filter_pairs arguments ks) ->
  In k ks /\ argument arguments k = VStr v /\ v <> "".
Proof.
  unfold filter_pairs. intros H. apply in_flat_map in H.
  destruct H as [k0 [Hk0 H]].
  destruct (argument arguments k0) as [| | b | x | s | items | props] eqn:E;
    try destruct H.
  destruct (String.eqb_spec s "") as [-> | Hs]; [destruct H |].
  destruct H as [H | []]. injection H as <- <-. auto.
Qed.

Lemma filter_pairs_has (ks : list string) (n : string) :
  URLSearchParams.has (filter_pairs arguments ks) n
  = existsb (String.eqb n) ks && nonempty_string (argument arguments n).
Proof.
  unfold filter_pairs, URLSearchParams.has.
  induction ks as [| k rest IH]; [reflexivity |].
  cbn [flat_map existsb]. rewrite existsb_app, IH.
  destruct (String.eqb_spec n k) as [-> | Hne].
  - destruct (argument arguments k) as [| | b | x | s | items | props];
      cbn [nonempty_string existsb orb andb]; 
      try (rewrite andb_false_r; reflexivity).
    destruct (String.eqb s ""); cbn [existsb fst negb orb andb].
    + rewrite andb_false_r. reflexivity.
    + rewrite String.eqb_refl. reflexivity.
  - cbn [orb].
    destruct (argument arguments k) as [| | b | x | s | items | props];
      cbn [existsb orb]; try reflexivity.
    destruct (String.eqb s ""); cbn [existsb fst orb]; [reflexivity |].
    destruct (String.eqb_spec k n) as [-> | _]; [congruence | reflexivity].
Qed.

(** The three listings, without a limit, build exactly the pairs of
    their string filters. *)
Lemma list_queries_without_limit (name path : string) (ks : list string) :
  In (name, path, ks) list_filters ->
  supplied arguments "limit" = false ->
  match name with
  | "list_customers" => list_customers_query (args_value arguments)
  | "list_payments" => list_payments_query (args_value arguments)
  | _ => list_billing_requests_query (args_value arguments)
  end = inr (filter_pairs arguments ks).
Proof.
  intros Hin Hlimit. simpl in Hin.
  destruct Hin as [E | [E | [E | []]]]; inversion E; subst name path ks;
    clear E;
    unfold list_customers_query, list_payments_query,
      list_billing_requests_query;
    rewrite (set_limit_absent _ _ Hlimit); cbn [andThen];
    rewrite !set_if_string_argument; cbn [andThen];
    try rewrite !set_if_string_argument;
    unfold filter_pairs, URLSearchParams.empty; cbn [flat_map].
  - destruct (argument arguments "after") as [| | b | x | s | items | props];
      try reflexivity.
    destruct (String.eqb s ""); reflexivity.
  - destruct (argument arguments "customer") as [| | b | x | s | items | props];
      try (destruct (String.eqb s ""));
      destruct (argument arguments "status") as [| | b' | x' | s' | items' | props'];
      try (destruct (String.eqb s' "")); reflexivity.
  - destruct (argument arguments "status") as [| | b | x | s | items | props];
      try (destruct (String.eqb s ""));
      destruct (argument arguments "customer") as [| | b' | x' | s' | items' | props'];
      try (destruct (String.eqb s' "")); reflexivity.
Qed.

End FilterPairs.

(** C3, as the code has it.  When the caller leaves [limit] out, each of
    the three listings sends one request, and its query holds exactly
    the pairs of the string filters of that listing: a name is a
    parameter exactly when it is one of these filters and its argument
    is a non-empty string, every parameter carries the string the caller
    gave, and [limit] is no parameter.  The value 50 is the [default]
    that the input schema of the listing declares for [limit]; the
    handler does not apply it. *)
Theorem omitted_limit_is_not_sent :
  forall cfg name path filters arguments up,
    accessToken cfg <> "" ->
    In (name, path, filters) list_filters ->
    supplied arguments "limit" = false ->
    fst (callTool cfg name arguments up)
    = [request_of cfg
         (path ++ "?"
          ++ URLSearchParams.toString (filter_pairs arguments filters))
         no_options]
    /\ (forall n,
           URLSearchParams.has (filter_pairs arguments filters) n
           = existsb (String.eqb n) filters
             && nonempty_string (argument arguments n))
    /\ (forall k v,
           In (k, v) (filter_pairs arguments filters) ->
           In k filters /\ argument arguments k = VStr v)
    /\ URLSearchParams.has (filter_pairs arguments filters) "limit" = false
    /\ declared_default name "limit" = Some (VNum 50%float).
Proof.
  intros cfg name path filters arguments up Htoken Hin Hlimit.
  split.
  - rewrite (callTool_sent _ _ _ _ Htoken).
    pose proof (list_queries_without_limit arguments name path filters
                  Hin Hlimit) as Hq.
    simpl in Hin.
    destruct Hin as [E | [E | [E | []]]]; inversion E; subst name path filters;
      clear E.
    + apply (list_case_sends cfg up _ "/customers?" list_customers_text _ Hq).
    + apply (list_case_sends cfg up _ "/payments?" list_payments_text _ Hq).
    + apply (list_case_sends cfg up _ "/billing_requests?"
               list_billing_requests_text _ Hq).
  - split; [apply filter_pairs_has |].
    split.
    { intros k v H.
      destruct (filter_pairs_in arguments filters k v H) as [H1 [H2 _]].
      split; assumption. }
    split.
    + rewrite filter_pairs_has.
      simpl in Hin.
      destruct Hin as [E | [E | [E | []]]]; inversion E; reflexivity.
    + simpl in Hin.
      destruct Hin as [E | [E | [E | []]]]; inversion E; reflexivity.
Qed.

Lemma omitted_limit_is_not_sent_witness :
  accessToken sample_config <> ""
  /\ In ("list_payments", "/payments", ["customer"; "status"]) list_filters
  /\ supplied (Some [("status", VStr "paid_out")]) "limit" = false
  /\ map url
       (fst (callTool sample_config "list_payments"
               (Some [("status", VStr "paid_out")])
               (fun _ => Rejects OtherValue)))
     = ["https://api-sandbox.gocardless.com/payments?status=paid_out"]
  /\ declared_default "list_payments" "limit" = Some (VNum 50%float).
Proof.
  assert (Htoken : accessToken sample_config <> "") by (simpl; discriminate).
  assert (Hin : In ("list_payments", "/payments", ["customer"; "status"])
                  list_filters)
    by (simpl; tauto).
  split; [exact Htoken |]. split; [exact Hin |]. split; [reflexivity |].
  destruct (omitted_limit_is_not_sent sample_config "list_payments"
              "/payments" ["customer"; "status"]
              (Some [("status", VStr "paid_out")])
              (fun _ => Rejects OtherValue) Htoken Hin eq_refl)
    as [Hsent [_ [_ [_ Hdefault]]]].
  split; [rewrite Hsent; reflexivity | exact Hdefault].
Defined.

(** C3 fails as stated: [list_customers] called without [limit] requests
    [/customers?] with an empty query; no [limit=50] is sent. *)
Lemma list_customers_without_limit :
  supplied (Some []) "limit" = false
  /\ map url
       (fst (callTool (GOCARDLESS_CONFIG None (Some "token")) "list_customers"
               (Some []) (fun _ => Rejects OtherValue)))
     = ["https://api-sandbox.gocardless.com/customers?"]
  /\ Str.includes "https://api-sandbox.gocardless.com/customers?" "limit"
     = false.
Proof. repeat split. Qed.

(** ** Rendering payments *)

Section Payments.

Lemma scalar_ToString (v : value) :
  scalar v = true -> exists s, ToString v = inr s.
Proof.
  destruct v as [| | [|] | x | s | items | props]; simpl; intros H;
    try discriminate H; eexists; reflexivity.
Qed.


Lemma scalar_or_else (v : value) (fallback : string) :
  scalar v = true -> scalar (or_else v (VStr fallback)) = true.
Proof. intros H. unfold or_else. destruct (truthy v); [exact H | reflexivity]. Qed.




(** The request helper returns the parsed body of a 2xx answer. *)
Lemma request_answered cfg endpoint options up resp :
  up (request_of cfg endpoint options) = Resolves resp ->
  ok resp = true ->
  makeGoCardlessRequest cfg endpoint options up
  = ([request_of cfg endpoint options], json resp).
Proof.
  intros Hup Hok. unfold makeGoCardlessRequest, bind, fetch.
  fold (request_of cfg endpoint options). rewrite Hup, Hok. simpl.
  unfold lift. destruct (json resp); reflexivity.
Qed.

(** A listing whose query, request and rendering all succeed. *)
Lemma list_case_result cfg up (query : completion URLSearchParams.t)
      (path : string) (render : value -> completion string)
      q resp data t :
  query = inr q ->
  up (request_of cfg (path ++ URLSearchParams.toString q) no_options)
  = Resolves resp ->
  ok resp = true ->
  json resp = inr data ->
  render data = inr t ->
  snd (bind (lift query)
         (fun q0 =>
            bind (makeGoCardlessRequest cfg
                    (path ++ URLSearchParams.toString q0) no_options)
              (fun data =>
                 bind (lift (render data)) (fun t => ret (text_result t))))
         up)
  = inr (text_result t).
Proof.
  intros -> Hup Hok Hjson Hrender. rewrite bind_lift.
  unfold bind at 1. rewrite (request_answered _ _ _ _ _ Hup Hok), Hjson.
  rewrite bind_lift, Hrender. reflexivity.
Qed.

End Payments.

Lemma callTool_returned cfg name arguments up r :
  accessToken cfg <> "" ->
  snd (dispatch cfg name (args_value arguments) up) = inr r ->
  snd (callTool cfg name arguments up) = r.
Proof.
  intros Htoken E. rewrite (callTool_dispatch cfg up Htoken).
  destruct (dispatch cfg name (args_value arguments) up) as [sent [e | r']];
    simpl in *; congruence.
Qed.


(** *** Two decimals *)


(** Every whole amount below 10000, checked one by one. *)
Lemma cents_exact_table : forallb cents_exact (seq 0 10000) = true.
Proof. vm_compute. reflexivity. Qed.






(** ** Empty listings *)

(** The test [x.length === 0] on an array agrees with comparing the
    number made from its length, here checked for every length up to 600
    (a page of the API holds at most 500 items). *)
Example length_test_agrees :
  forallb
    (fun n =>
       Bool.eqb (strict_eq_num (VNum (Num.of_nat n)) 0%float) (Nat.eqb n 0))
    (seq 0 601) = true.
Proof. vm_compute. reflexivity. Qed.

Lemma list_payments_text_empty (data : value) :
  get data "payments" = inr (VArr []) ->
  list_payments_text data = inr "No payments found matching the criteria.".
Proof. intros H. unfold list_payments_text. rewrite H. reflexivity. Qed.

Lemma list_billing_requests_text_empty (data : value) :
  get data "billing_requests" = inr (VArr []) ->
  list_billing_requests_text data
  = inr "No billing requests found matching the criteria.".
Proof. intros H. unfold list_billing_requests_text. rewrite H. reflexivity. Qed.

Lemma list_customers_text_empty (data : value) :
  get data "customers" = inr (VArr []) ->
  list_customers_text data = inr ("Found 0 customers:" ++ LF ++ LF).
Proof.
  intros H. unfold list_customers_text. rewrite H.
  vm_compute. reflexivity.
Qed.

(** The two sibling listings do return their fixed sentence when the
    upstream has nothing to list. *)
Lemma list_payments_empty cfg arguments up q resp data :
  accessToken cfg <> "" ->
  list_payments_query (args_value arguments) = inr q ->
  up (request_of cfg ("/payments?" ++ URLSearchParams.toString q) no_options)
  = Resolves resp ->
  ok resp = true ->
  json resp = inr data ->
  get data "payments" = inr (VArr []) ->
  snd (callTool cfg "list_payments" arguments up)
  = text_result "No payments found matching the criteria.".
Proof.
  intros Htoken Hq Hup Hok Hjson Hdata.
  apply (callTool_returned cfg "list_payments" arguments up _ Htoken).
  apply (list_case_result cfg up _ "/payments?" list_payments_text
           q resp data _ Hq Hup Hok Hjson).
  apply list_payments_text_empty, Hdata.
Qed.

Lemma list_billing_requests_empty cfg arguments up q resp data :
  accessToken cfg <> "" ->
  list_billing_requests_query (args_value arguments) = inr q ->
  up (request_of cfg ("/billing_requests?" ++ URLSearchParams.toString q)
        no_options)
  = Resolves resp ->
  ok resp = true ->
  json resp = inr data ->
  get data "billing_requests" = inr (VArr []) ->
  snd (callTool cfg "list_billing_requests" arguments up)
  = text_result "No billing requests found matching the criteria.".
Proof.
  intros Htoken Hq Hup Hok Hjson Hdata.
  apply (callTool_returned cfg "list_billing_requests" arguments up _ Htoken).
  apply (list_case_result cfg up _ "/billing_requests?"
           list_billing_requests_text q resp data _ Hq Hup Hok Hjson).
  apply list_billing_requests_text_empty, Hdata.
Qed.

(** [list_customers] has no such branch: whatever the arguments and the
    rest of the answer, an empty [customers] array gives the header of an
    enumeration. *)
Lemma list_customers_empty cfg arguments up q resp data :
  accessToken cfg <> "" ->
  list_customers_query (args_value arguments) = inr q ->
  up (request_of cfg ("/customers?" ++ URLSearchParams.toString q) no_options)
  = Resolves resp ->
  ok resp = true ->
  json resp = inr data ->
  get data "customers" = inr (VArr []) ->
  snd (callTool cfg "list_customers" arguments up)
  = text_result ("Found 0 customers:" ++ LF ++ LF).
Proof.
  intros Htoken Hq Hup Hok Hjson Hdata.
  apply (callTool_returned cfg "list_customers" arguments up _ Htoken).
  apply (list_case_result cfg up _ "/customers?" list_customers_text
           q resp data _ Hq Hup Hok Hjson).
  apply list_customers_text_empty, Hdata.
Qed.

(** C2 at [list_customers]: an upstream answer with no customers is
    rendered as the enumeration header [Found 0 customers:] followed by a
    blank line, not as a fixed sentence. *)
Theorem list_customers_empty_is_enumerated :
  snd (callTool (GOCARDLESS_CONFIG None (Some "token")) "list_customers" None
         (fun _ => Resolves
            (mkResponse 200 "OK" "" (inr (VObj [("customers", VArr [])])))))
  = text_result ("Found 0 customers:" ++ LF ++ LF).
Proof. vm_compute. reflexivity. Qed.

(** ** Induction over the cases of the switch *)

Section DispatchInduction.

Variable cfg : Config.

(** A property of handler steps, indexed by the tool name, that the
    combinators preserve and that holds of every request site. *)
Variable Q : string -> forall A : Type, M A -> Prop.

Hypothesis Q_ret : forall n A (a : A), Q n A (ret a).
Hypothesis Q_throw : forall n A (e : thrown), Q n A (throw e).
Hypothesis Q_lift : forall n A (c : completion A), Q n A (lift c).
Hypothesis Q_bind :
  forall n A B (m : M A) (k : A -> M B),
    Q n A m -> (forall a, Q n B (k a)) -> Q n B (bind m k).
Hypothesis Q_site :
  forall n endpoint options,
    Site n endpoint options ->
    Q n value (makeGoCardlessRequest cfg endpoint options).

Ltac case_steps :=
  repeat first
    [ apply Q_ret
    | apply Q_throw
    | apply Q_lift
    | apply Q_site; constructor
    | apply Q_bind; [| intros ?]
    | match goal with
      | |- Q _ _ (if ?b then _ else _) => destruct b
      end ].

(** Then it holds of the whole switch, for every name and arguments. *)
Lemma dispatch_closed (name : string) (args : value) :
  Q name ToolResult (dispatch cfg name args).
Proof.
  unfold dispatch.
  repeat match goal with
         | |- context [String.eqb name ?s] =>
             destruct (String.eqb_spec name s) as [-> | _]
         end;
    unfold case_list_customers, case_create_customer, case_get_customer,
      case_list_customer_bank_accounts, case_create_redirect_flow,
      case_list_payments, case_create_billing_request,
      case_create_billing_request_flow, case_get_billing_request,
      case_list_billing_requests, case_fulfil_billing_request;
    case_steps.
Qed.

Lemma try_block_closed (name : string) (args : value) :
  Q name ToolResult (try_block cfg name args).
Proof.
  unfold try_block. destruct (negb (truthy (VStr (accessToken cfg)))).
  - apply Q_ret.
  - apply dispatch_closed.
Qed.

End DispatchInduction.

(** ** What is sent, and how a failed request ends *)

Lemma bind_sent {A B} (m : M A) (k : A -> M B) (up : Upstream) (req : Request) :
  In req (fst (bind m k up)) ->
  In req (fst (m up))
  \/ exists a, snd (m up) = inr a /\ In req (fst (k a up)).
Proof.
  unfold bind. destruct (m up) as [sent [e | a]]; simpl.
  - intros H. left. exact H.
  - destruct (k a up) as [sent' r] eqn:E. simpl. intros H.
    apply in_app_or in H. destruct H as [H | H].
    + left. exact H.
    + right. exists a. rewrite E. split; [reflexivity | exact H].
Qed.

Lemma bind_returned {A B} (m : M A) (k : A -> M B) (up : Upstream) (a : A) :
  snd (m up) = inr a -> snd (bind m k up) = snd (k a up).
Proof.
  unfold bind. destruct (m up) as [sent [e | a']]; simpl; intros H.
  - discriminate H.
  - injection H as ->. destruct (k a up); reflexivity.
Qed.

Lemma bind_thrown {A B} (m : M A) (k : A -> M B) (up : Upstream) (e : thrown) :
  snd (m up) = inl e -> snd (bind m k up) = inl e.
Proof.
  unfold bind. destruct (m up) as [sent [e' | a]]; simpl; intros H.
  - injection H as ->. reflexivity.
  - discriminate H.
Qed.

(** The request helper in full: one request, and the parsed body or the
    failure. *)
Lemma request_run cfg endpoint options up :
  makeGoCardlessRequest cfg endpoint options up
  = ([request_of cfg endpoint options],
     match failure_of (up (request_of cfg endpoint options)) with
     | Some e => inl e
     | None =>
         match up (request_of cfg endpoint options) with
         | Resolves r => json r
         | Rejects e => inl e
         end
     end).
Proof.
  unfold makeGoCardlessRequest, bind, fetch, failure_of.
  fold (request_of cfg endpoint options).
  destruct (up (request_of cfg endpoint options)) as [e | r];
    [reflexivity |].
  unfold api_error. destruct (ok r); simpl.
  - unfold lift. destruct (json r); reflexivity.
  - reflexivity.
Qed.

Lemma callTool_try cfg name arguments up :
  fst (callTool cfg name arguments up)
  = fst (try_block cfg name (args_value arguments) up)
  /\ snd (callTool cfg name arguments up)
     = match snd (try_block cfg name (args_value arguments) up) with
       | inr result => result
       | inl error => catch_block error
       end.
Proof.
  unfold callTool.
  destruct (try_block cfg name (args_value arguments) up) as [sent [e | r]];
    split; reflexivity.
Qed.

Lemma sent_request_site cfg name arguments up req :
  In req (fst (callTool cfg name arguments up)) ->
  exists endpoint options,
    Site name endpoint options /\ req = request_of cfg endpoint options.
Proof.
  destruct (callTool_try cfg name arguments up) as [-> _].
  revert up req.
  apply (try_block_closed cfg
           (fun n A m =>
              forall up req, In req (fst (m up)) ->
                exists endpoint options,
                  Site n endpoint options
                  /\ req = request_of cfg endpoint options)).
  - intros n A a up req [].
  - intros n A e up req [].
  - intros n A c up req [].
  - intros n A B m k Hm Hk up req H.
    destruct (bind_sent m k up req H) as [H' | [a [_ H']]].
    + apply (Hm up req H').
    + apply (Hk a up req H').
  - intros n endpoint options Hsite up req H.
    rewrite request_run in H. destruct H as [<- | []].
    exists endpoint, options. split; [exact Hsite | reflexivity].
Qed.

(** X2. Every request [callTool] sends is the one of a request site of the
    tool that was called: its endpoint and options come from the table
    [Site], the rest from the configuration. *)
Theorem requests_follow_sites :
  forall cfg name arguments up req,
    In req (fst (callTool cfg name arguments up)) ->
    exists endpoint options,
      Site name endpoint options /\ req = request_of cfg endpoint options.
Proof.
  intros cfg name arguments up req. apply sent_request_site.
Qed.

Lemma requests_follow_sites_witness :
  In (request_of sample_config "/customers/CU123" no_options)
     (fst (callTool sample_config "get_customer"
             (Some [("customer_id", VStr "CU123")])
             (fun _ => Rejects OtherValue)))
  /\ exists endpoint options,
      Site "get_customer" endpoint options
      /\ request_of sample_config "/customers/CU123" no_options
         = request_of sample_config endpoint options.
Proof.
  assert (H : In (request_of sample_config "/customers/CU123" no_options)
                (fst (callTool sample_config "get_customer"
                        (Some [("customer_id", VStr "CU123")])
                        (fun _ => Rejects OtherValue))))
    by (left; reflexivity).
  split; [exact H |].
  exact (requests_follow_sites sample_config "get_customer"
           (Some [("customer_id", VStr "CU123")])
           (fun _ => Rejects OtherValue) _ H).
Defined.

(** A request that fails, by a rejected [fetch], a non-2xx status or a
    body that does not parse, ends the invocation with that failure. *)
Lemma failed_request_is_caught :
  forall cfg name arguments up req e,
    In req (fst (callTool cfg name arguments up)) ->
    failure_of (up req) = Some e ->
    snd (callTool cfg name arguments up) = catch_block e.
Proof.
  intros cfg name arguments up req e.
  destruct (callTool_try cfg name arguments up) as [-> ->].
  intros Hin Hfail.
  assert (E : snd (try_block cfg name (args_value arguments) up) = inl e).
  { revert up req e Hin Hfail.
    apply (try_block_closed cfg
             (fun n A m =>
                forall up req e, In req (fst (m up)) ->
                  failure_of (up req) = Some e -> snd (m up) = inl e)).
    - intros n A a up req e [].
    - intros n A e0 up req e [].
    - intros n A c up req e [].
    - intros n A B m k Hm Hk up req e H Hfail.
      destruct (bind_sent m k up req H) as [H' | [a [Ha H']]].
      + apply bind_thrown. apply (Hm up req e H' Hfail).
      + rewrite (bind_returned m k up a Ha). apply (Hk a up req e H' Hfail).
    - intros n endpoint options _ up req e H Hfail.
      rewrite request_run in *. destruct H as [<- | []].
      simpl. rewrite Hfail. reflexivity. }
  rewrite E. reflexivity.
Qed.

(** X5. A non-2xx answer to the request of any tool gives an error-flagged
    result whose text is [Error: GoCardless API error: ], the status
    code, the status text and, on the next line, the raw body. *)
Theorem upstream_error_is_reported :
  forall cfg name arguments up req resp,
    In req (fst (callTool cfg name arguments up)) ->
    up req = Resolves resp ->
    ok resp = false ->
    error_flagged (snd (callTool cfg name arguments up)) = true
    /\ result_text (snd (callTool cfg name arguments up))
       = "Error: GoCardless API error: " ++ Str.of_Z (status resp) ++ " "
         ++ statusText resp ++ LF ++ text resp
    /\ Str.includes (result_text (snd (callTool cfg name arguments up)))
         (Str.of_Z (status resp)) = true.
Proof.
  intros cfg name arguments up req resp Hin Hup Hok.
  rewrite (failed_request_is_caught cfg name arguments up req
             (ErrorObject (api_error resp)) Hin).
  - split; [reflexivity |]. split; [reflexivity |].
    cbn [result_text catch_block content block_text].
    apply (includes_between "Error: GoCardless API error: "
             (Str.of_Z (status resp))
             (" " ++ statusText resp ++ LF ++ text resp)).
  - unfold failure_of. rewrite Hup, Hok. reflexivity.
Qed.

Lemma upstream_error_is_reported_witness :
  In (request_of sample_config "/customers/INVALID_ID" no_options)
     (fst (callTool sample_config "get_customer"
             (Some [("customer_id", VStr "INVALID_ID")])
             (fun _ => Resolves
                (mkResponse 404 "Not Found" "{}" (inr VNull)))))
  /\ ok (mkResponse 404 "Not Found" "{}" (inr VNull)) = false
  /\ result_text
       (snd (callTool sample_config "get_customer"
               (Some [("customer_id", VStr "INVALID_ID")])
               (fun _ => Resolves
                  (mkResponse 404 "Not Found" "{}" (inr VNull)))))
     = "Error: GoCardless API error: " ++ Str.of_Z 404 ++ " "
       ++ "Not Found" ++ LF ++ "{}".
Proof.
  assert (Hin : In (request_of sample_config "/customers/INVALID_ID"
                      no_options)
                  (fst (callTool sample_config "get_customer"
                          (Some [("customer_id", VStr "INVALID_ID")])
                          (fun _ => Resolves
                             (mkResponse 404 "Not Found" "{}" (inr VNull))))))
    by (left; reflexivity).
  split; [exact Hin |]. split; [reflexivity |].
  pose proof (upstream_error_is_reported sample_config "get_customer"
                (Some [("customer_id", VStr "INVALID_ID")])
                (fun _ => Resolves
                   (mkResponse 404 "Not Found" "{}" (inr VNull)))
                _ (mkResponse 404 "Not Found" "{}" (inr VNull))
                Hin eq_refl eq_refl) as [_ [Htext _]].
  exact Htext.
Defined.

(** X6. When [fetch] rejects, or the body of a 2xx answer does not parse,
    the result is error-flagged and its text is [Error: ] followed by the
    message of the error, or by [Unknown error occurred] when what was
    thrown is not an [Error]. *)
Theorem rejected_request_is_reported :
  forall cfg name arguments up req e,
    In req (fst (callTool cfg name arguments up)) ->
    up req = Rejects e
    \/ (exists resp, up req = Resolves resp /\ ok resp = true
                     /\ json resp = inl e) ->
    error_flagged (snd (callTool cfg name arguments up)) = true
    /\ result_text (snd (callTool cfg name arguments up))
       = "Error: " ++ match e with
                      | ErrorObject message => message
                      | OtherValue => "Unknown error occurred"
                      end.
Proof.
  intros cfg name arguments up req e Hin Hup.
  rewrite (failed_request_is_caught cfg name arguments up req e Hin).
  - split; reflexivity.
  - unfold failure_of. destruct Hup as [-> | [resp [-> [Hok Hjson]]]].
    + reflexivity.
    + rewrite Hok, Hjson. reflexivity.
Qed.

Lemma rejected_request_is_reported_witness :
  In (request_of sample_config "/payments?" no_options)
     (fst (callTool sample_config "list_payments" None
             (fun _ => Rejects OtherValue)))
  /\ result_text
       (snd (callTool sample_config "list_payments" None
               (fun _ => Rejects OtherValue)))
     = "Error: Unknown error occurred".
Proof.
  assert (Hin : In (request_of sample_config "/payments?" no_options)
                  (fst (callTool sample_config "list_payments" None
                          (fun _ => Rejects OtherValue))))
    by (left; reflexivity).
  split; [exact Hin |].
  pose proof (rejected_request_is_reported sample_config "list_payments" None
                (fun _ => Rejects OtherValue) _ OtherValue Hin
                (or_introl eq_refl)) as [_ Htext].
  exact Htext.
Defined.

Lemma site_no_headers name endpoint options :
  Site name endpoint options -> opt_headers options = [].
Proof. intros H. destruct H; reflexivity. Qed.

(** X3. Every request sent carries exactly three headers: the bearer token
    of the configuration, the API version and the JSON content type; and
    its URL starts with the base URL of the configured environment. *)
Theorem requests_are_authenticated :
  forall cfg name arguments up req,
    In req (fst (callTool cfg name arguments up)) ->
    headers req
    = [ ("Authorization", "Bearer " ++ accessToken cfg);
        ("GoCardless-Version", version cfg);
        ("Content-Type", "application/json") ]
    /\ Str.startsWith (url req) (getApiBaseUrl cfg) = true.
Proof.
  intros cfg name arguments up req Hin.
  destruct (sent_request_site cfg name arguments up req Hin)
    as [endpoint [options [Hsite ->]]].
  unfold request_of. cbn [headers url].
  rewrite (site_no_headers _ _ _ Hsite). split; [reflexivity |].
  apply prefix_refl_app.
Qed.

Lemma requests_are_authenticated_witness :
  In (request_of sample_config "/customers?limit=5" no_options)
     (fst (callTool sample_config "list_customers"
             (Some [("limit", VNum 5%float)]) (fun _ => Rejects OtherValue)))
  /\ headers (request_of sample_config "/customers?limit=5" no_options)
     = [ ("Authorization", "Bearer token");
         ("GoCardless-Version", "2015-07-06");
         ("Content-Type", "application/json") ].
Proof.
  assert (Hin : In (request_of sample_config "/customers?limit=5" no_options)
                  (fst (callTool sample_config "list_customers"
                          (Some [("limit", VNum 5%float)])
                          (fun _ => Rejects OtherValue))))
    by (left; vm_compute; reflexivity).
  split; [exact Hin |].
  exact (proj1 (requests_are_authenticated sample_config "list_customers"
                  (Some [("limit", VNum 5%float)])
                  (fun _ => Rejects OtherValue) _ Hin)).
Defined.

(** X4. The create-style tools and [fulfil_billing_request] send a POST; every
    other tool sends a request with no method set (a GET) and no body. *)
Theorem method_by_tool :
  forall cfg name arguments up req,
    In req (fst (callTool cfg name arguments up)) ->
    if posts name
    then method req = Some "POST"
    else method req = None /\ body req = None.
Proof.
  intros cfg name arguments up req Hin.
  destruct (sent_request_site cfg name arguments up req Hin)
    as [endpoint [options [Hsite ->]]].
  destruct Hsite; cbn; repeat split.
Qed.

Lemma method_by_tool_witness :
  In (request_of sample_config "/billing_requests/BRQ1/actions/fulfil"
        (POST (stringify (VObj []))))
     (fst (callTool sample_config "fulfil_billing_request"
             (Some [("billing_request_id", VStr "BRQ1")])
             (fun _ => Rejects OtherValue)))
  /\ method (request_of sample_config "/billing_requests/BRQ1/actions/fulfil"
               (POST (stringify (VObj [])))) = Some "POST".
Proof.
  assert (Hin : In (request_of sample_config
                      "/billing_requests/BRQ1/actions/fulfil"
                      (POST (stringify (VObj []))))
                  (fst (callTool sample_config "fulfil_billing_request"
                          (Some [("billing_request_id", VStr "BRQ1")])
                          (fun _ => Rejects OtherValue))))
    by (left; reflexivity).
  split; [exact Hin |].
  exact (method_by_tool sample_config "fulfil_billing_request"
           (Some [("billing_request_id", VStr "BRQ1")])
           (fun _ => Rejects OtherValue) _ Hin).
Defined.

(** ** One request at most *)

Section AtMostOne.

Lemma at_most_one_silent {A} (m : M A) : silent m -> at_most_one m.
Proof. intros H up. rewrite (H up). simpl. apply Nat.le_0_l. Qed.

Lemma at_most_one_after_lift {A B} (c : completion A) (k : A -> M B) :
  (forall a, at_most_one (k a)) -> at_most_one (bind (lift c) k).
Proof.
  intros Hk up. rewrite bind_lift. destruct c as [e | a].
  - simpl. apply Nat.le_0_l.
  - apply Hk.
Qed.

Lemma at_most_one_request {B} cfg endpoint options (k : value -> M B) :
  (forall d, silent (k d)) ->
  at_most_one (bind (makeGoCardlessRequest cfg endpoint options) k).
Proof.
  intros Hk up. rewrite (request_sent_once cfg endpoint options k up Hk).
  apply Nat.le_refl.
Qed.

End AtMostOne.

Ltac at_most_one_steps :=
  repeat first
    [ apply at_most_one_request; intros ?; solve [silent_steps]
    | apply at_most_one_after_lift; intros ?
    | solve [apply at_most_one_silent; silent_steps]
    | match goal with
      | |- at_most_one (if ?b then _ else _) => destruct b
      end ].

(** X1. No invocation sends more than one request: there is no retry and no
    second call, whatever the tool, the arguments and the upstream. *)
Theorem at_most_one_request_per_call :
  forall cfg name arguments up,
    (List.length (fst (callTool cfg name arguments up)) <= 1)%nat.
Proof.
  intros cfg name arguments up.
  destruct (callTool_try cfg name arguments up) as [-> _].
  revert up. change (at_most_one (try_block cfg name (args_value arguments))).
  unfold try_block. destruct (negb (truthy (VStr (accessToken cfg)))).
  - apply at_most_one_silent. silent_steps.
  - unfold dispatch,
      case_list_customers, case_create_customer, case_get_customer,
      case_list_customer_bank_accounts, case_create_redirect_flow,
      case_list_payments, case_create_billing_request,
      case_create_billing_request_flow, case_get_billing_request,
      case_list_billing_requests, case_fulfil_billing_request.
    at_most_one_steps.
Qed.

(** ** Arguments outside the schema *)

Ltac same_reads H p :=
  unfold field, cents, set_limit, set_if_string;
  cbn [get get_opt andThen truthy negb];
  repeat match goal with
         | |- context [own p ?k] => rewrite (H k) by (simpl; tauto)
         end;
  reflexivity.

(** A case reads its arguments only through the names its schema
    declares. *)
Lemma dispatch_reads_declared cfg name p1 p2 :
  In name (map Registry.name listTools) ->
  (forall k, In k (declared name) -> own p1 k = own p2 k) ->
  dispatch cfg name (VObj p1) = dispatch cfg name (VObj p2).
Proof.
  intros Hin H. simpl in Hin.
  repeat (destruct Hin as [<- | Hin]); [.. | destruct Hin].
  - change (case_list_customers cfg (VObj p1)
            = case_list_customers cfg (VObj p2)).
    unfold case_list_customers, list_customers_query. same_reads H p1.
  - change (case_create_customer cfg (VObj p1)
            = case_create_customer cfg (VObj p2)).
    unfold case_create_customer, create_customer_body. same_reads H p1.
  - change (case_get_customer cfg (VObj p1) = case_get_customer cfg (VObj p2)).
    unfold case_get_customer. same_reads H p1.
  - change (case_list_customer_bank_accounts cfg (VObj p1)
            = case_list_customer_bank_accounts cfg (VObj p2)).
    unfold case_list_customer_bank_accounts. same_reads H p1.
  - change (case_create_redirect_flow cfg (VObj p1)
            = case_create_redirect_flow cfg (VObj p2)).
    unfold case_create_redirect_flow, create_redirect_flow_body.
    same_reads H p1.
  - change (case_list_payments cfg (VObj p1)
            = case_list_payments cfg (VObj p2)).
    unfold case_list_payments, list_payments_query. same_reads H p1.
  - change (case_create_billing_request cfg (VObj p1)
            = case_create_billing_request cfg (VObj p2)).
    unfold case_create_billing_request, create_billing_request_body,
      create_billing_request_text.
    same_reads H p1.
  - change (case_create_billing_request_flow cfg (VObj p1)
            = case_create_billing_request_flow cfg (VObj p2)).
    unfold case_create_billing_request_flow, create_billing_request_flow_body.
    same_reads H p1.
  - change (case_get_billing_request cfg (VObj p1)
            = case_get_billing_request cfg (VObj p2)).
    unfold case_get_billing_request. same_reads H p1.
  - change (case_list_billing_requests cfg (VObj p1)
            = case_list_billing_requests cfg (VObj p2)).
    unfold case_list_billing_requests, list_billing_requests_query.
    same_reads H p1.
  - change (case_fulfil_billing_request cfg (VObj p1)
            = case_fulfil_billing_request cfg (VObj p2)).
    unfold case_fulfil_billing_request. same_reads H p1.
Qed.

Lemma callTool_same_dispatch cfg name a1 a2 up :
  dispatch cfg name (args_value a1) = dispatch cfg name (args_value a2) ->
  callTool cfg name a1 up = callTool cfg name a2 up.
Proof.
  intros E. unfold callTool, try_block. rewrite E. reflexivity.
Qed.

(** X8. Arguments the input schema of the tool does not declare are ignored:
    two argument objects that agree on the declared names give the same
    requests and the same result. *)
Theorem undeclared_arguments_are_ignored :
  forall cfg name p1 p2 up,
    In name (map Registry.name listTools) ->
    (forall k, In k (declared name) -> own p1 k = own p2 k) ->
    callTool cfg name (Some p1) up = callTool cfg name (Some p2) up.
Proof.
  intros cfg name p1 p2 up Hin H.
  apply callTool_same_dispatch.
  apply (dispatch_reads_declared cfg name p1 p2 Hin H).
Qed.

Lemma undeclared_arguments_are_ignored_witness :
  In "list_payments" (map Registry.name listTools)
  /\ callTool sample_config "list_payments"
       (Some [("status", VStr "failed"); ("mandate", VStr "MD123")])
       (fun _ => Rejects OtherValue)
     = callTool sample_config "list_payments"
         (Some [("status", VStr "failed")])
         (fun _ => Rejects OtherValue).
Proof.
  assert (Hin : In "list_payments" (map Registry.name listTools))
    by (simpl; tauto).
  split; [exact Hin |].
  apply (undeclared_arguments_are_ignored sample_config "list_payments"
           [("status", VStr "failed"); ("mandate", VStr "MD123")]
           [("status", VStr "failed")] (fun _ => Rejects OtherValue) Hin).
  intros k Hk. simpl in Hk.
  destruct Hk as [<- | [<- | [<- | []]]]; reflexivity.
Defined.

(** X9. [create_billing_request_flow] never reads [session_token], although
    its schema requires it: argument objects that differ in that field
    alone give the same request and the same result. *)
Theorem session_token_is_not_forwarded :
  forall cfg p1 p2 up,
    (forall k, k <> "session_token" -> own p1 k = own p2 k) ->
    callTool cfg "create_billing_request_flow" (Some p1) up
    = callTool cfg "create_billing_request_flow" (Some p2) up.
Proof.
  intros cfg p1 p2 up H.
  apply callTool_same_dispatch.
  change (case_create_billing_request_flow cfg (VObj p1)
          = case_create_billing_request_flow cfg (VObj p2)).
  unfold case_create_billing_request_flow, create_billing_request_flow_body.
  cbn [get andThen truthy negb].
  repeat match goal with
         | |- context [own p1 ?k] => rewrite (H k) by discriminate
         end.
  reflexivity.
Qed.

Lemma session_token_is_not_forwarded_witness :
  callTool sample_config "create_billing_request_flow"
    (Some [("session_token", VStr "s1"); ("billing_request_id", VStr "BRQ1")])
    (fun _ => Rejects OtherValue)
  = callTool sample_config "create_billing_request_flow"
      (Some [("billing_request_id", VStr "BRQ1")])
      (fun _ => Rejects OtherValue).
Proof.
  apply (session_token_is_not_forwarded sample_config
           [("session_token", VStr "s1"); ("billing_request_id", VStr "BRQ1")]
           [("billing_request_id", VStr "BRQ1")]
           (fun _ => Rejects OtherValue)).
  intros k Hk. cbn [own].
  destruct (String.eqb_spec "session_token" k) as [E | _];
    [exfalso; apply Hk; symmetry; exact E | reflexivity].
Defined.

(** ** The query of a listing *)

Section QueryKeys.

Lemma has_set (q : URLSearchParams.t) (k s n : string) :
  URLSearchParams.has (URLSearchParams.set q k s) n
  = String.eqb k n || URLSearchParams.has q n.
Proof.
  destruct (String.eqb k n) eqn:Hkn.
  - apply String.eqb_eq in Hkn. subst n. simpl.
    induction q as [| [k' v] rest IH].
    + unfold URLSearchParams.has. simpl. rewrite String.eqb_refl. reflexivity.
    + cbn [URLSearchParams.set].
      destruct (String.eqb k' k) eqn:E.
      * unfold URLSearchParams.has. simpl. rewrite E. reflexivity.
      * unfold URLSearchParams.has in *. simpl. rewrite E. exact IH.
  - simpl. apply has_set_other. exact Hkn.
Qed.

Variable props : list (string * value).

(** A string filter is copied exactly when it is a non-empty string. *)
Lemma set_if_string_spec (k : string) (q : URLSearchParams.t) :
  set_if_string (VObj props) k q
  = inr (match own props k with
         | VStr s => if String.eqb s "" then q else URLSearchParams.set q k s
         | _ => q
         end).
Proof.
  unfold set_if_string. cbn [get_opt get andThen].
  destruct (own props k) as [| | b | x | s | items | ps]; cbn [truthy typeof];
    try reflexivity.
  - rewrite andb_false_r. reflexivity.
  - rewrite andb_false_r. reflexivity.
  - destruct (String.eqb s ""); reflexivity.
Qed.

Lemma set_if_string_has (k n : string) (q q' : URLSearchParams.t) :
  set_if_string (VObj props) k q = inr q' ->
  URLSearchParams.has q' n
  = (String.eqb k n && nonempty_string (own props k)) || URLSearchParams.has q n.
Proof.
  rewrite set_if_string_spec. intros E. injection E as <-.
  destruct (own props k) as [| | b | x | s | items | ps]; cbn [nonempty_string];
    try (rewrite andb_false_r; reflexivity).
  destruct (String.eqb s ""); cbn [negb].
  - rewrite andb_false_r. reflexivity.
  - rewrite andb_true_r. apply has_set.
Qed.

Lemma add_filters_has (ks : list string) (n : string) :
  forall q q',
    add_filters (VObj props) ks q = inr q' ->
    URLSearchParams.has q' n
    = existsb (fun k => String.eqb k n && nonempty_string (own props k)) ks
      || URLSearchParams.has q n.
Proof.
  induction ks as [| k rest IH]; intros q q' E.
  - injection E as <-. reflexivity.
  - cbn [add_filters] in E. rewrite set_if_string_spec in E. cbn [andThen] in E.
    rewrite (IH _ _ E). cbn [existsb].
    rewrite (set_if_string_has k n q _ (set_if_string_spec k q)).
    destruct (existsb
                (fun k0 => String.eqb k0 n && nonempty_string (own props k0))
                rest),
      (String.eqb k n && nonempty_string (own props k)),
      (URLSearchParams.has q n); reflexivity.
Qed.

Lemma set_limit_has (n : string) (q : URLSearchParams.t) :
  set_limit (VObj props) [] = inr q ->
  URLSearchParams.has q n
  = String.eqb "limit" n && truthy (own props "limit").
Proof.
  unfold set_limit. cbn [get_opt get andThen].
  destruct (truthy (own props "limit")).
  - destruct (call_toString "args.limit" (own props "limit")) as [e | s];
      cbn [andThen]; intros E; [discriminate E |].
    injection E as <-. unfold URLSearchParams.has.
    cbn [URLSearchParams.set existsb fst]. rewrite andb_true_r.
    apply orb_false_r.
  - intros E. injection E as <-. rewrite andb_false_r. reflexivity.
Qed.

(** A listing is its [limit] line followed by its filter lines. *)
Lemma list_queries_by_filters :
  (forall args, list_customers_query args
                = andThen (set_limit args []) (add_filters args ["after"]))
  /\ (forall args, list_payments_query args
                   = andThen (set_limit args [])
                       (add_filters args ["customer"; "status"]))
  /\ (forall args, list_billing_requests_query args
                   = andThen (set_limit args [])
                       (add_filters args ["status"; "customer"])).
Proof.
  unfold list_customers_query, list_payments_query,
    list_billing_requests_query, URLSearchParams.empty.
  repeat split; intros args;
    destruct (set_limit args []) as [e | q]; cbn [andThen add_filters];
    try reflexivity.
  - destruct (set_if_string args "after" q); reflexivity.
  - destruct (set_if_string args "customer" q) as [e | q1]; cbn [andThen];
      [reflexivity |].
    destruct (set_if_string args "status" q1); reflexivity.
  - destruct (set_if_string args "status" q) as [e | q1]; cbn [andThen];
      [reflexivity |].
    destruct (set_if_string args "customer" q1); reflexivity.
Qed.

Lemma limit_then_filters_has (ks : list string) (n : string)
      (q : URLSearchParams.t) :
  andThen (set_limit (VObj props) []) (add_filters (VObj props) ks) = inr q ->
  URLSearchParams.has q n
  = (String.eqb "limit" n && truthy (own props "limit"))
    || existsb (fun k => String.eqb k n && nonempty_string (own props k)) ks.
Proof.
  destruct (set_limit (VObj props) []) as [e | q0] eqn:E0; cbn [andThen];
    intros E; [discriminate E |].
  rewrite (add_filters_has ks n _ _ E), (set_limit_has n q0 E0).
  apply orb_comm.
Qed.

End QueryKeys.

Lemma list_case_request cfg up (query : completion URLSearchParams.t)
      (path : string) (render : value -> completion string) (req : Request) :
  In req
     (fst (bind (lift query)
             (fun q0 =>
                bind (makeGoCardlessRequest cfg
                        (path ++ URLSearchParams.toString q0) no_options)
                  (fun data =>
                     bind (lift (render data)) (fun t => ret (text_result t))))
             up)) ->
  exists q,
    query = inr q
    /\ req = request_of cfg (path ++ URLSearchParams.toString q) no_options.
Proof.
  rewrite bind_lift. destruct query as [e | q]; [intros [] |].
  rewrite request_sent_once by (intros d; silent_steps).
  intros [<- | []]. exists q. split; reflexivity.
Qed.

(** X10. The query string of a listing holds [limit] exactly when the [limit]
    argument is truthy, each filter of the tool exactly when that argument
    is a non-empty string, and no other parameter. *)
Theorem listing_query_keys :
  forall cfg name path filters props up req,
    In (name, path, filters) list_filters ->
    In req (fst (callTool cfg name (Some props) up)) ->
    exists q,
      req = request_of cfg (path ++ "?" ++ URLSearchParams.toString q)
              no_options
      /\ forall n,
          URLSearchParams.has q n
          = (String.eqb "limit" n && truthy (own props "limit"))
            || existsb
                 (fun k => String.eqb k n && nonempty_string (own props k))
                 filters.
Proof.
  intros cfg name path filters props up req Hname.
  destruct (callTool_try cfg name (Some props) up) as [-> _].
  unfold try_block. destruct (negb (truthy (VStr (accessToken cfg))));
    [intros [] |].
  destruct list_queries_by_filters as [Ec [Ep Eb]].
  simpl in Hname.
  destruct Hname as [E | [E | [E | []]]]; inversion E; subst; clear E;
    intros Hin.
  - apply (list_case_request cfg up _ "/customers?" list_customers_text)
      in Hin.
    destruct Hin as [q [Eq ->]]. exists q. split; [reflexivity |].
    intros n. rewrite Ec in Eq.
    apply (limit_then_filters_has props ["after"] n q Eq).
  - apply (list_case_request cfg up _ "/payments?" list_payments_text) in Hin.
    destruct Hin as [q [Eq ->]]. exists q. split; [reflexivity |].
    intros n. rewrite Ep in Eq.
    apply (limit_then_filters_has props ["customer"; "status"] n q Eq).
  - apply (list_case_request cfg up _ "/billing_requests?"
             list_billing_requests_text) in Hin.
    destruct Hin as [q [Eq ->]]. exists q. split; [reflexivity |].
    intros n. rewrite Eb in Eq.
    apply (limit_then_filters_has props ["status"; "customer"] n q Eq).
Qed.

Lemma listing_query_keys_witness :
  In ("list_payments", "/payments", ["customer"; "status"]) list_filters
  /\ In (request_of sample_config "/payments?status=failed" no_options)
        (fst (callTool sample_config "list_payments"
                (Some [("limit", VNum 0%float); ("customer", VNum 7%float);
                       ("status", VStr "failed")])
                (fun _ => Rejects OtherValue)))
  /\ exists q,
      request_of sample_config "/payments?status=failed" no_options
      = request_of sample_config
          ("/payments" ++ "?" ++ URLSearchParams.toString q) no_options
      /\ forall n,
          URLSearchParams.has q n
          = (String.eqb "limit" n
             && truthy
                  (own [("limit", VNum 0%float); ("customer", VNum 7%float);
                        ("status", VStr "failed")] "limit"))
            || existsb
                 (fun k =>
                    String.eqb k n
                    && nonempty_string
                         (own [("limit", VNum 0%float);
                               ("customer", VNum 7%float);
                               ("status", VStr "failed")] k))
                 ["customer"; "status"].
Proof.
  assert (Hname : In ("list_payments", "/payments", ["customer"; "status"])
                    list_filters) by (simpl; tauto).
  assert (Hin : In (request_of sample_config "/payments?status=failed"
                      no_options)
                  (fst (callTool sample_config "list_payments"
                          (Some [("limit", VNum 0%float);
                                 ("customer", VNum 7%float);
                                 ("status", VStr "failed")])
                          (fun _ => Rejects OtherValue))))
    by (left; vm_compute; reflexivity).
  split; [exact Hname |]. split; [exact Hin |].
  exact (listing_query_keys sample_config "list_payments" "/payments"
           ["customer"; "status"]
           [("limit", VNum 0%float); ("customer", VNum 7%float);
            ("status", VStr "failed")]
           (fun _ => Rejects OtherValue) _ Hname Hin).
Defined.

Section LimitValue.

Variable props : list (string * value).

Lemma add_filters_keep_head (ks : list string) (k0 v0 : string) :
  (forall k, In k ks -> String.eqb k0 k = false) ->
  forall q, exists q',
    add_filters (VObj props) ks ((k0, v0) :: q) = inr ((k0, v0) :: q').
Proof.
  induction ks as [| k rest IH]; intros Hks q.
  - exists q. reflexivity.
  - cbn [add_filters]. rewrite set_if_string_spec. cbn [andThen].
    assert (Hk : String.eqb k0 k = false) by (apply Hks; left; reflexivity).
    assert (Hrest : forall k', In k' rest -> String.eqb k0 k' = false)
      by (intros k' H'; apply Hks; right; exact H').
    destruct (own props k) as [| | b | x | s | items | ps];
      try apply (IH Hrest q).
    destruct (String.eqb s ""); [apply (IH Hrest q) |].
    cbn [URLSearchParams.set]. rewrite Hk. apply (IH Hrest).
Qed.

End LimitValue.

(** X11. A truthy [limit] is not validated: whatever its [toString()] gives is
    sent as the first parameter of the query, before the filters. *)
Theorem truthy_limit_is_stringified :
  forall cfg name path filters props up s,
    accessToken cfg <> "" ->
    In (name, path, filters) list_filters ->
    truthy (own props "limit") = true ->
    call_toString "args.limit" (own props "limit") = inr s ->
    exists q',
      fst (callTool cfg name (Some props) up)
      = [request_of cfg
           (path ++ "?" ++ URLSearchParams.toString (("limit", s) :: q'))
           no_options].
Proof.
  intros cfg name path filters props up s Htoken Hname Htruthy Hs.
  rewrite (callTool_sent _ _ _ _ Htoken).
  assert (Hlimit : set_limit (VObj props) [] = inr [("limit", s)]).
  { unfold set_limit. cbn [get_opt get andThen]. rewrite Htruthy, Hs.
    reflexivity. }
  destruct list_queries_by_filters as [Ec [Ep Eb]].
  simpl in Hname.
  destruct Hname as [E | [E | [E | []]]]; inversion E; subst; clear E.
  - destruct (add_filters_keep_head props ["after"] "limit" s) with (q := @nil (string * string))
      as [q' Eq].
    { intros k [<- | []]; reflexivity. }
    exists q'.
    apply (list_case_sends cfg up _ "/customers?" list_customers_text).
    cbn [args_value]. rewrite Ec, Hlimit. exact Eq.
  - destruct (add_filters_keep_head props ["customer"; "status"] "limit" s)
      with (q := @nil (string * string)) as [q' Eq].
    { intros k [<- | [<- | []]]; reflexivity. }
    exists q'.
    apply (list_case_sends cfg up _ "/payments?" list_payments_text).
    cbn [args_value]. rewrite Ep, Hlimit. exact Eq.
  - destruct (add_filters_keep_head props ["status"; "customer"] "limit" s)
      with (q := @nil (string * string)) as [q' Eq].
    { intros k [<- | [<- | []]]; reflexivity. }
    exists q'.
    apply (list_case_sends cfg up _ "/billing_requests?"
             list_billing_requests_text).
    cbn [args_value]. rewrite Eb, Hlimit. exact Eq.
Qed.

Lemma truthy_limit_is_stringified_witness :
  accessToken sample_config <> ""
  /\ In ("list_customers", "/customers", ["after"]) list_filters
  /\ call_toString "args.limit" (VStr "all") = inr "all"
  /\ exists q',
      fst (callTool sample_config "list_customers"
             (Some [("limit", VStr "all")]) (fun _ => Rejects OtherValue))
      = [request_of sample_config
           ("/customers" ++ "?"
            ++ URLSearchParams.toString (("limit", "all") :: q'))
           no_options].
Proof.
  assert (Htoken : accessToken sample_config <> "") by (simpl; discriminate).
  assert (Hname : In ("list_customers", "/customers", ["after"]) list_filters)
    by (simpl; tauto).
  split; [exact Htoken |]. split; [exact Hname |]. split; [reflexivity |].
  exact (truthy_limit_is_stringified sample_config "list_customers"
           "/customers" ["after"] [("limit", VStr "all")]
           (fun _ => Rejects OtherValue) "all" Htoken Hname eq_refl eq_refl).
Defined.

(** ** Identifiers in the endpoint *)

Lemma append_empty_r (s : string) : s ++ "" = s.
Proof. induction s as [| c s IH]; simpl; [reflexivity | rewrite IH; reflexivity]. Qed.

Lemma id_case_sends cfg up (key message id : string)
      (props : list (string * value)) (options : Options)
      (render : value -> completion string) (route : string -> string) :
  own props key = VStr id ->
  id <> "" ->
  fst (bind (lift (get_opt (VObj props) key))
         (fun v =>
            if negb (truthy v) then throw (ErrorObject message)
            else
              bind (lift (field (VObj props) key))
                (fun s =>
                   bind (makeGoCardlessRequest cfg (route s) options)
                     (fun data =>
                        bind (lift (render data))
                          (fun t => ret (text_result t)))))
         up)
  = [request_of cfg (route id) options].
Proof.
  intros Hown Hid. rewrite bind_lift. cbn [get_opt get]. rewrite Hown.
  rewrite (truthy_token id Hid). rewrite bind_lift.
  unfold field. cbn [get andThen]. rewrite Hown. cbn [ToString].
  apply request_sent_once. intros d. silent_steps.
Qed.

(** X12. The identifier of the four single-resource tools is written into the
    endpoint as it is, without escaping: any non-empty string passes the
    guard and the URL requested is the base URL, the route and that very
    string. *)
Theorem identifier_is_inserted_verbatim :
  forall cfg name key prefix suffix props up id,
    accessToken cfg <> "" ->
    In (name, key, prefix, suffix) id_routes ->
    own props key = VStr id ->
    id <> "" ->
    map url (fst (callTool cfg name (Some props) up))
    = [getApiBaseUrl cfg ++ prefix ++ id ++ suffix].
Proof.
  intros cfg name key prefix suffix props up id Htoken Hroute Hown Hid.
  rewrite (callTool_sent _ _ _ _ Htoken).
  simpl in Hroute.
  destruct Hroute as [E | [E | [E | [E | []]]]]; inversion E; subst;
    clear E; cbn [args_value].
  - change (dispatch cfg "get_customer" (VObj props))
      with (case_get_customer cfg (VObj props)).
    unfold case_get_customer.
    rewrite (id_case_sends cfg up "customer_id" _ id props no_options
               get_customer_text (fun s => "/customers/" ++ s) Hown Hid).
    cbn [map url request_of]. rewrite append_empty_r. reflexivity.
  - change (dispatch cfg "list_customer_bank_accounts" (VObj props))
      with (case_list_customer_bank_accounts cfg (VObj props)).
    unfold case_list_customer_bank_accounts.
    rewrite (id_case_sends cfg up "customer_id" _ id props no_options
               list_customer_bank_accounts_text
               (fun s => "/customer_bank_accounts?customer=" ++ s) Hown Hid).
    cbn [map url request_of]. rewrite append_empty_r. reflexivity.
  - change (dispatch cfg "get_billing_request" (VObj props))
      with (case_get_billing_request cfg (VObj props)).
    unfold case_get_billing_request.
    rewrite (id_case_sends cfg up "billing_request_id" _ id props no_options
               get_billing_request_text
               (fun s => "/billing_requests/" ++ s) Hown Hid).
    cbn [map url request_of]. rewrite append_empty_r. reflexivity.
  - change (dispatch cfg "fulfil_billing_request" (VObj props))
      with (case_fulfil_billing_request cfg (VObj props)).
    unfold case_fulfil_billing_request.
    rewrite (id_case_sends cfg up "billing_request_id" _ id props
               (POST (stringify (VObj [])))
               fulfil_billing_request_text
               (fun s => "/billing_requests/" ++ s ++ "/actions/fulfil")
               Hown Hid).
    reflexivity.
Qed.

Lemma identifier_is_inserted_verbatim_witness :
  accessToken sample_config <> ""
  /\ In ("get_customer", "customer_id", "/customers/", "") id_routes
  /\ map url
       (fst (callTool sample_config "get_customer"
               (Some [("customer_id", VStr "CU1/../../payments?limit=1")])
               (fun _ => Rejects OtherValue)))
     = [getApiBaseUrl sample_config ++ "/customers/"
        ++ "CU1/../../payments?limit=1" ++ ""].
Proof.
  assert (Htoken : accessToken sample_config <> "") by (simpl; discriminate).
  assert (Hroute : In ("get_customer", "customer_id", "/customers/", "")
                     id_routes) by (simpl; tauto).
  split; [exact Htoken |]. split; [exact Hroute |].
  apply (identifier_is_inserted_verbatim sample_config "get_customer"
           "customer_id" "/customers/" ""
           [("customer_id", VStr "CU1/../../payments?limit=1")]
           (fun _ => Rejects OtherValue) "CU1/../../payments?limit=1"
           Htoken Hroute eq_refl).
  discriminate.
Defined.

(** ** Header merge *)

Section HeaderMerge.

Lemma find_put_header (hs : list (string * string)) (k v n : string) :
  find_header (put_header hs k v) n
  = if String.eqb k n then Some v else find_header hs n.
Proof.
  induction hs as [| [k' v'] rest IH]; cbn [put_header find_header].
  - reflexivity.
  - destruct (String.eqb_spec k' k) as [-> | Hne]; cbn [find_header].
    + destruct (String.eqb k n); reflexivity.
    + rewrite IH. destruct (String.eqb_spec k' n) as [-> | Hn];
        [| reflexivity].
      destruct (String.eqb_spec k n) as [-> | _];
        [contradiction | reflexivity].
Qed.

Lemma find_header_app (a b : list (string * string)) (n : string) :
  find_header (a ++ b) n
  = match find_header a n with
    | Some v => Some v
    | None => find_header b n
    end.
Proof.
  induction a as [| [k v] rest IH]; cbn [app find_header]; [reflexivity |].
  destruct (String.eqb k n); [reflexivity | exact IH].
Qed.

(** In the spread, the last value given for a name wins, and a name
    that is not given keeps the value it had. *)
Lemma find_spread (extra base : list (string * string)) (n : string) :
  find_header (spread base extra) n
  = match find_header (rev extra) n with
    | Some v => Some v
    | None => find_header base n
    end.
Proof.
  unfold spread. revert base.
  induction extra as [| [k v] rest IH]; intros base; cbn [fold_left rev].
  - reflexivity.
  - rewrite IH, find_header_app. cbn [fst snd find_header].
    rewrite find_put_header.
    destruct (find_header (rev rest) n); [reflexivity |].
    destruct (String.eqb k n); reflexivity.
Qed.

End HeaderMerge.

(** X7. Headers passed in the options of [makeGoCardlessRequest] override
    the three default headers name by name, the last value given winning;
    they cannot remove one: each default name is still present in the
    request. *)
Theorem option_headers_override :
  forall cfg endpoint options up n,
    map headers (fst (makeGoCardlessRequest cfg endpoint options up))
    = [spread (default_headers cfg) (opt_headers options)]
    /\ find_header (spread (default_headers cfg) (opt_headers options)) n
       = match find_header (rev (opt_headers options)) n with
         | Some v => Some v
         | None => find_header (default_headers cfg) n
         end
    /\ Forall
         (fun k =>
            find_header (spread (default_headers cfg) (opt_headers options)) k
            <> None)
         ["Authorization"; "GoCardless-Version"; "Content-Type"].
Proof.
  intros cfg endpoint options up n.
  split; [rewrite request_run; reflexivity |].
  split; [apply find_spread |].
  repeat constructor; rewrite find_spread;
    destruct (find_header (rev (opt_headers options)) _); discriminate.
Qed.

(** ** The body of create_customer *)


(** *** What [JSON.stringify] writes of an object *)















(** ** Billing requests without a payment request *)

Section BillingFallbacks.

Variable br : list (string * value).

Hypothesis no_payment_request : nullish (own br "payment_request") = true.

Lemma payment_request_field_fallback (k fallback : string) :
  payment_request_field (VObj br) k fallback = inr fallback.
Proof.
  unfold payment_request_field. cbn [get andThen].
  destruct (own br "payment_request"); try discriminate no_payment_request;
    reflexivity.
Qed.

Lemma payment_request_amount_fallback :
  payment_request_amount (VObj br) = inr "N/A".
Proof.
  unfold payment_request_amount. cbn [get andThen].
  destruct (own br "payment_request"); try discriminate no_payment_request;
    reflexivity.
Qed.

End BillingFallbacks.

(** An identifier case whose request and rendering succeed. *)
Lemma id_case_result cfg up (key message id : string)
      (props : list (string * value)) (options : Options)
      (render : value -> completion string) (route : string -> string)
      resp data t :
  own props key = VStr id ->
  id <> "" ->
  up (request_of cfg (route id) options) = Resolves resp ->
  ok resp = true ->
  json resp = inr data ->
  render data = inr t ->
  snd (bind (lift (get_opt (VObj props) key))
         (fun v =>
            if negb (truthy v) then throw (ErrorObject message)
            else
              bind (lift (field (VObj props) key))
                (fun s =>
                   bind (makeGoCardlessRequest cfg (route s) options)
                     (fun data =>
                        bind (lift (render data))
                          (fun t => ret (text_result t)))))
         up)
  = inr (text_result t).
Proof.
  intros Hown Hid Hup Hok Hjson Hrender.
  rewrite bind_lift. cbn [get_opt get]. rewrite Hown.
  rewrite (truthy_token id Hid). rewrite bind_lift.
  unfold field. cbn [get andThen]. rewrite Hown. cbn [ToString].
  unfold bind at 1. rewrite (request_answered _ _ _ _ _ Hup Hok), Hjson.
  rewrite bind_lift, Hrender. reflexivity.
Qed.

(** X16. [get_billing_request], answered with a billing request that has no
    [payment_request], does not fail: the text shows [Amount: N/A N/A],
    [Description: No description] and [Reference: None]. *)
Theorem billing_request_without_payment_request :
  forall cfg props up id resp data br,
    accessToken cfg <> "" ->
    own props "billing_request_id" = VStr id ->
    id <> "" ->
    up (request_of cfg ("/billing_requests/" ++ id) no_options)
    = Resolves resp ->
    ok resp = true ->
    json resp = inr data ->
    get data "billing_requests" = inr (VObj br) ->
    nullish (own br "payment_request") = true ->
    forallb (fun k => scalar (own br k))
      ["id"; "status"; "created_at"; "purpose_code"] = true ->
    error_flagged (snd (callTool cfg "get_billing_request" (Some props) up))
    = false
    /\ Forall
         (fun line =>
            Str.includes
              (result_text
                 (snd (callTool cfg "get_billing_request" (Some props) up)))
              line = true)
         [ "Amount: N/A N/A"; "Description: No description";
           "Reference: None" ].
Proof.
  intros cfg props up id resp data br Htoken Hown Hid Hup Hok Hjson Hdata
         Hnull Hscalar.
  cbn [forallb] in Hscalar.
  repeat (apply andb_true_iff in Hscalar; destruct Hscalar as [? Hscalar]).
  destruct (scalar_ToString (own br "id")) as [sid Eid]; [assumption |].
  destruct (scalar_ToString (own br "status")) as [sst Est]; [assumption |].
  destruct (scalar_ToString (own br "created_at")) as [scr Ecr];
    [assumption |].
  destruct (scalar_ToString (own br "purpose_code")) as [spu Epu];
    [assumption |].
  assert (Etext :
    get_billing_request_text data
    = inr ("Billing Request Details:" ++ LF ++ LF
           ++ "ID: " ++ sid ++ LF
           ++ "Status: " ++ sst ++ LF
           ++ "Amount: " ++ "N/A" ++ " " ++ "N/A" ++ LF
           ++ "Description: " ++ "No description" ++ LF
           ++ "Created: " ++ scr ++ LF
           ++ "Purpose: " ++ spu ++ LF
           ++ "Reference: " ++ "None" ++ LF
           ++ "Metadata: " ++ template_of (stringify_pretty (own br "metadata")))).
  { unfold get_billing_request_text. rewrite Hdata. cbn [andThen].
    rewrite !(payment_request_field_fallback br Hnull).
    rewrite (payment_request_amount_fallback br Hnull).
    unfold field. cbn [get andThen].
    rewrite Eid, Est, Ecr, Epu. reflexivity. }
  rewrite (callTool_returned cfg "get_billing_request" (Some props) up
             _ Htoken
             (id_case_result cfg up "billing_request_id" _ id props no_options
                get_billing_request_text
                (fun s => "/billing_requests/" ++ s) resp data _
                Hown Hid Hup Hok Hjson Etext)).
  split; [reflexivity |].
  cbn [result_text text_result content block_text].
  repeat constructor.
  - do 9 apply includes_skip.
    apply (includes_head "Amount: N/A N/A").
  - do 14 apply includes_skip.
    apply (includes_head "Description: No description").
  - do 23 apply includes_skip.
    apply (includes_head "Reference: None").
Qed.

Lemma billing_request_without_payment_request_witness :
  accessToken sample_config <> ""
  /\ nullish VUndef = true
  /\ Forall
       (fun line =>
          Str.includes
            (result_text
               (snd (callTool sample_config "get_billing_request"
                       (Some [("billing_request_id", VStr "BRQ0001")])
                       (fun _ => Resolves
                          (answer 200 "OK" bare_billing_request)))))
            line = true)
       [ "Amount: N/A N/A"; "Description: No description";
         "Reference: None" ].
Proof.
  assert (Htoken : accessToken sample_config <> "") by (simpl; discriminate).
  split; [exact Htoken |]. split; [reflexivity |].
  apply (billing_request_without_payment_request sample_config
           [("billing_request_id", VStr "BRQ0001")]
           (fun _ => Resolves (answer 200 "OK" bare_billing_request))
           "BRQ0001" (answer 200 "OK" bare_billing_request)
           bare_billing_request
           [ ("id", VStr "BRQ0001");
             ("status", VStr "pending");
             ("created_at", VStr "2024-03-01T09:30:00.000Z");
             ("purpose_code", VStr "utility");
             ("metadata", VObj []) ]
           Htoken eq_refl);
    try reflexivity.
  discriminate.
Defined.

(** X17. In a listing, a billing request whose payment request has a falsy
    amount (zero, missing, null) is shown with the amount [N/A], after its
    currency, not with [0.00]. *)
Theorem falsy_amount_is_not_rendered :
  forall props pr currency,
    own props "payment_request" = VObj pr ->
    truthy (own pr "amount") = false ->
    ToString (or_else (own pr "currency") (VStr "N/A")) = inr currency ->
    forallb (fun k => scalar (own props k)) ["id"; "status"; "created_at"]
    = true ->
    scalar (own pr "description") = true ->
    exists rest,
      render_billing_request (VObj props)
      = inr (bullet ++ " Amount: " ++ currency ++ " " ++ "N/A" ++ rest).
Proof.
  intros props pr currency Hpr Hamount Hcurrency Hscalar Hdescription.
  cbn [forallb] in Hscalar.
  repeat (apply andb_true_iff in Hscalar; destruct Hscalar as [? Hscalar]).
  destruct (scalar_ToString (own props "id")) as [sid Eid]; [assumption |].
  destruct (scalar_ToString (own props "status")) as [sst Est];
    [assumption |].
  destruct (scalar_ToString (own props "created_at")) as [scr Ecr];
    [assumption |].
  destruct (scalar_ToString
              (or_else (own pr "description") (VStr "No description")))
    as [sde Ede]; [apply scalar_or_else; assumption |].
  exists (LF ++ "  ID: " ++ sid ++ LF ++ "  Status: " ++ sst ++ LF
          ++ "  Created: " ++ scr ++ LF ++ "  Description: " ++ sde).
  unfold render_billing_request, payment_request_field,
    payment_request_amount, field.
  cbn [get andThen]. rewrite Hpr. cbn [get_opt get andThen].
  rewrite Hcurrency, Hamount. cbn [andThen].
  rewrite Eid, Est, Ecr. cbn [andThen]. rewrite Ede. reflexivity.
Qed.

Lemma falsy_amount_is_not_rendered_witness :
  truthy (own [("amount", VNum 0%float); ("currency", VStr "GBP")] "amount")
  = false
  /\ exists rest,
      render_billing_request
        (VObj [("id", VStr "BRQ0002");
               ("payment_request",
                VObj [("amount", VNum 0%float); ("currency", VStr "GBP")])])
      = inr (bullet ++ " Amount: " ++ "GBP" ++ " " ++ "N/A" ++ rest).
Proof.
  split; [reflexivity |].
  apply (falsy_amount_is_not_rendered
           [("id", VStr "BRQ0002");
            ("payment_request",
             VObj [("amount", VNum 0%float); ("currency", VStr "GBP")])]
           [("amount", VNum 0%float); ("currency", VStr "GBP")] "GBP");
    reflexivity.
Defined.

(** ** Schemas and amounts *)

(** In every tool of the table, each required name is a declared
    property and no property name is declared twice. *)
Theorem schemas_are_consistent :
  forallb schema_consistent listTools = true
  /\ forall t k,
      In t listTools ->
      In k (Registry.required_of (Registry.inputSchema t)) ->
      In k (property_names (Registry.inputSchema t)).
Proof.
  assert (H : forallb schema_consistent listTools = true) by reflexivity.
  split; [exact H |].
  intros t k Ht Hk.
  rewrite forallb_forall in H. specialize (H t Ht).
  unfold schema_consistent in H. apply andb_true_iff in H.
  destruct H as [H _]. rewrite forallb_forall in H. specialize (H k Hk).
  apply existsb_exists in H. destruct H as [k' [Hk' E]].
  apply String.eqb_eq in E. subst k'. exact Hk'.
Qed.

(** X20. Every whole amount of minor units below 10000, divided by 100 and
    passed to [toFixed(2)], prints as its units, a point and its two
    last digits: binary floating point loses nothing in this range. *)
Theorem cents_are_exact :
  forall n,
    (n < 10000)%nat ->
    cents (VNum (Num.of_nat n)) = inr (units_and_cents n).
Proof.
  pose proof cents_exact_table as H.
  intros n Hn. rewrite forallb_forall in H.
  specialize (H n). unfold cents_exact in H.
  destruct (cents (VNum (Num.of_nat n))) as [e | s].
  - discriminate H. apply in_seq. split; [apply Nat.le_0_l | exact Hn].
  - f_equal. apply String.eqb_eq. apply H.
    apply in_seq. split; [apply Nat.le_0_l | exact Hn].
Qed.

Lemma cents_are_exact_witness :
  (1999 < 10000)%nat
  /\ cents (VNum (Num.of_nat 1999)) = inr (units_and_cents 1999).
Proof.
  assert (H : (1999 < 10000)%nat) by (apply Nat.ltb_lt; reflexivity).
  split; [exact H | exact (cents_are_exact 1999 H)].
Defined.

(** ** Answers without the resource *)

Section BareBody.

Variable key : string.

Lemma bare_throw (e : thrown) : rejects_bare_body key (throw e).
Proof. intros up req resp data []. Qed.

Lemma bare_after_lift {A} (c : completion A) (k : A -> M ToolResult) :
  (forall a, rejects_bare_body key (k a)) ->
  rejects_bare_body key (bind (lift c) k).
Proof.
  intros Hk up req resp data. rewrite bind_lift.
  destruct c as [e | a]; [intros [] | apply Hk].
Qed.

Lemma bare_request cfg endpoint options (render : value -> completion string) :
  (forall data,
      lacks key data = true ->
      exists what,
        render data = inl (ErrorObject ("Cannot read properties of " ++ what))) ->
  rejects_bare_body key
    (bind (makeGoCardlessRequest cfg endpoint options)
       (fun data => bind (lift (render data)) (fun t => ret (text_result t)))).
Proof.
  intros Hrender up req resp data Hin Hup Hok Hjson Hlacks.
  rewrite request_sent_once in Hin by (intros d; silent_steps).
  destruct Hin as [<- | []].
  unfold bind at 1. rewrite (request_answered _ _ _ _ _ Hup Hok), Hjson.
  rewrite bind_lift.
  destruct (Hrender data Hlacks) as [what ->]. exists what. reflexivity.
Qed.

End BareBody.

Ltac bare_render :=
  let data := fresh "data" in
  let H := fresh "H" in
  let ps := fresh "ps" in
  intros data H; unfold lacks in H;
  cbv delta [list_customers_text create_customer_text get_customer_text
             list_customer_bank_accounts_text create_redirect_flow_text
             list_payments_text create_billing_request_text
             create_billing_request_flow_text get_billing_request_text
             list_billing_requests_text fulfil_billing_request_text
             field payment_request_field payment_request_amount];
  destruct data as [| | ? | ? | ? | ? | ps];
  cbn in H; try discriminate H;
  [ eexists; cbn; reflexivity ..
  | cbn [get andThen]; destruct (own ps _); try discriminate H;
    eexists; cbn; reflexivity ].

Ltac bare_steps :=
  repeat first
    [ apply bare_throw
    | apply bare_request; bare_render
    | apply bare_after_lift; intros ?
    | match goal with
      | |- rejects_bare_body _ (if ?b then _ else _) => destruct b
      end ].

Lemma dispatch_rejects_bare_body cfg name key args :
  In (name, key) envelope ->
  rejects_bare_body key (dispatch cfg name args).
Proof.
  intros Hname. simpl in Hname.
  repeat (destruct Hname as [E | Hname]; [inversion E; subst; clear E |]);
    [.. | destruct Hname].
  - change (rejects_bare_body "customers" (case_list_customers cfg args)).
    unfold case_list_customers. bare_steps.
  - change (rejects_bare_body "customers" (case_create_customer cfg args)).
    unfold case_create_customer. bare_steps.
  - change (rejects_bare_body "customers" (case_get_customer cfg args)).
    unfold case_get_customer. bare_steps.
  - change (rejects_bare_body "customer_bank_accounts"
              (case_list_customer_bank_accounts cfg args)).
    unfold case_list_customer_bank_accounts. bare_steps.
  - change (rejects_bare_body "redirect_flows"
              (case_create_redirect_flow cfg args)).
    unfold case_create_redirect_flow. bare_steps.
  - change (rejects_bare_body "payments" (case_list_payments cfg args)).
    unfold case_list_payments. bare_steps.
  - change (rejects_bare_body "billing_requests"
              (case_create_billing_request cfg args)).
    unfold case_create_billing_request. bare_steps.
  - change (rejects_bare_body "billing_request_flows"
              (case_create_billing_request_flow cfg args)).
    unfold case_create_billing_request_flow. bare_steps.
  - change (rejects_bare_body "billing_requests"
              (case_get_billing_request cfg args)).
    unfold case_get_billing_request. bare_steps.
  - change (rejects_bare_body "billing_requests"
              (case_list_billing_requests cfg args)).
    unfold case_list_billing_requests. bare_steps.
  - change (rejects_bare_body "billing_requests"
              (case_fulfil_billing_request cfg args)).
    unfold case_fulfil_billing_request. bare_steps.
Qed.

(** X18. A 2xx answer whose body does not hold the resource of the tool
    (the body is [null], is not an object, or has nothing under the
    resource key) never gives a success text: the property read throws
    and the result is error-flagged. *)
Theorem answer_without_resource_is_error :
  forall cfg name key arguments up req resp data,
    In (name, key) envelope ->
    In req (fst (callTool cfg name arguments up)) ->
    up req = Resolves resp ->
    ok resp = true ->
    json resp = inr data ->
    lacks key data = true ->
    error_flagged (snd (callTool cfg name arguments up)) = true
    /\ Str.startsWith (result_text (snd (callTool cfg name arguments up)))
         "Error: Cannot read properties of " = true.
Proof.
  intros cfg name key arguments up req resp data Hname.
  destruct (callTool_try cfg name arguments up) as [-> ->].
  unfold try_block. destruct (negb (truthy (VStr (accessToken cfg))));
    [intros [] |].
  intros Hin Hup Hok Hjson Hlacks.
  destruct (dispatch_rejects_bare_body cfg name key (args_value arguments)
              Hname up req resp data Hin Hup Hok Hjson Hlacks)
    as [what ->].
  split; [reflexivity |].
  unfold Str.startsWith. cbn [result_text catch_block content block_text].
  apply (prefix_refl_app "Error: Cannot read properties of " what).
Qed.

Lemma answer_without_resource_is_error_witness :
  In ("list_payments", "payments") envelope
  /\ lacks "payments" (VObj [("customers", VArr [])]) = true
  /\ error_flagged
       (snd (callTool sample_config "list_payments" None
               (fun _ => Resolves
                  (answer 200 "OK" (VObj [("customers", VArr [])])))))
     = true.
Proof.
  assert (Hname : In ("list_payments", "payments") envelope)
    by (simpl; tauto).
  split; [exact Hname |]. split; [reflexivity |].
  apply (answer_without_resource_is_error sample_config "list_payments"
           "payments" None
           (fun _ => Resolves
              (answer 200 "OK" (VObj [("customers", VArr [])])))
           (request_of sample_config "/payments?" no_options)
           (answer 200 "OK" (VObj [("customers", VArr [])]))
           (VObj [("customers", VArr [])]) Hname);
    try reflexivity.
  left. reflexivity.
Defined.

(** ** Falsy identifiers *)

(** X13. An identifier that is present but falsy (the empty string, null,
    zero, false) is rejected like a missing one: nothing is sent and the
    text is [Error: ], the name of the argument and [ is required]. *)
Theorem falsy_identifier_is_rejected :
  forall cfg name key prefix suffix props up,
    accessToken cfg <> "" ->
    In (name, key, prefix, suffix) id_routes ->
    truthy (own props key) = false ->
    fst (callTool cfg name (Some props) up) = []
    /\ snd (callTool cfg name (Some props) up)
       = catch_block (ErrorObject (key ++ " is required")).
Proof.
  intros cfg name key prefix suffix props up Htoken Hroute Hfalsy.
  rewrite (callTool_dispatch cfg up Htoken). cbn [args_value].
  simpl in Hroute.
  destruct Hroute as [E | [E | [E | [E | []]]]]; inversion E; subst; clear E.
  - change (dispatch cfg "get_customer" (VObj props))
      with (case_get_customer cfg (VObj props)).
    unfold case_get_customer. rewrite bind_lift. cbn [get_opt get].
    rewrite Hfalsy. split; reflexivity.
  - change (dispatch cfg "list_customer_bank_accounts" (VObj props))
      with (case_list_customer_bank_accounts cfg (VObj props)).
    unfold case_list_customer_bank_accounts. rewrite bind_lift.
    cbn [get_opt get]. rewrite Hfalsy. split; reflexivity.
  - change (dispatch cfg "get_billing_request" (VObj props))
      with (case_get_billing_request cfg (VObj props)).
    unfold case_get_billing_request. rewrite bind_lift. cbn [get_opt get].
    rewrite Hfalsy. split; reflexivity.
  - change (dispatch cfg "fulfil_billing_request" (VObj props))
      with (case_fulfil_billing_request cfg (VObj props)).
    unfold case_fulfil_billing_request. rewrite bind_lift.
    cbn [get_opt get]. rewrite Hfalsy. split; reflexivity.
Qed.

Lemma falsy_identifier_is_rejected_witness :
  accessToken sample_config <> ""
  /\ In ("get_customer", "customer_id", "/customers/", "") id_routes
  /\ truthy (own [("customer_id", VStr "")] "customer_id") = false
  /\ fst (callTool sample_config "get_customer"
            (Some [("customer_id", VStr "")]) (fun _ => Rejects OtherValue))
     = []
  /\ snd (callTool sample_config "get_customer"
            (Some [("customer_id", VStr "")]) (fun _ => Rejects OtherValue))
     = catch_block (ErrorObject ("customer_id" ++ " is required")).
Proof.
  assert (Htoken : accessToken sample_config <> "") by (simpl; discriminate).
  assert (Hroute : In ("get_customer", "customer_id", "/customers/", "")
                     id_routes) by (simpl; tauto).
  split; [exact Htoken |]. split; [exact Hroute |]. split; [reflexivity |].
  exact (falsy_identifier_is_rejected sample_config "get_customer"
           "customer_id" "/customers/" "" [("customer_id", VStr "")]
           (fun _ => Rejects OtherValue) Htoken Hroute eq_refl).
Defined.

(** ** The registry and the switch *)

Lemma site_is_registered name endpoint options :
  Site name endpoint options -> In name (map Registry.name listTools).
Proof. intros H. destruct H; simpl; tauto. Qed.

(** X19. The table and the switch name the same tools: with a token
    configured, the names for which some arguments make [callTool] send a
    request are exactly the names [listTools] offers. *)
Theorem registry_matches_switch :
  forall cfg name up,
    accessToken cfg <> "" ->
    (In name (map Registry.name listTools)
     <-> exists arguments, fst (callTool cfg name arguments up) <> []).
Proof.
  intros cfg name up Htoken. split.
  - intros Hin.
    exists (Some [("customer_id", VStr "id");
                  ("billing_request_id", VStr "id")]).
    rewrite (callTool_sent _ _ _ _ Htoken). cbn [args_value].
    assert (Hone :
      List.length
        (fst (dispatch cfg name
                (VObj [("customer_id", VStr "id");
                       ("billing_request_id", VStr "id")]) up)) = 1%nat).
    { assert (Hid : "id" <> "") by discriminate.
      simpl in Hin.
      repeat (destruct Hin as [<- | Hin]); [.. | destruct Hin].
      - exact (f_equal (@List.length Request)
                 (list_case_sends cfg up
                    (list_customers_query
                       (VObj [("customer_id", VStr "id");
                             ("billing_request_id", VStr "id")]))
                    "/customers?" list_customers_text [] eq_refl)).
      - apply create_case_sends, create_customer_body_total.
      - exact (f_equal (@List.length Request)
                 (id_case_sends cfg up "customer_id" _ "id"
                    [("customer_id", VStr "id");
                     ("billing_request_id", VStr "id")] no_options
                    get_customer_text (fun s => "/customers/" ++ s) eq_refl Hid)).
      - exact (f_equal (@List.length Request)
                 (id_case_sends cfg up "customer_id" _ "id"
                    [("customer_id", VStr "id");
                     ("billing_request_id", VStr "id")] no_options
                    list_customer_bank_accounts_text (fun s => "/customer_bank_accounts?customer=" ++ s) eq_refl Hid)).
      - apply create_case_sends, create_redirect_flow_body_total.
      - exact (f_equal (@List.length Request)
                 (list_case_sends cfg up
                    (list_payments_query
                       (VObj [("customer_id", VStr "id");
                             ("billing_request_id", VStr "id")]))
                    "/payments?" list_payments_text [] eq_refl)).
      - apply create_case_sends, create_billing_request_body_total.
      - apply create_case_sends, create_billing_request_flow_body_total.
      - exact (f_equal (@List.length Request)
                 (id_case_sends cfg up "billing_request_id" _ "id"
                    [("customer_id", VStr "id");
                     ("billing_request_id", VStr "id")] no_options
                    get_billing_request_text (fun s => "/billing_requests/" ++ s) eq_refl Hid)).
      - exact (f_equal (@List.length Request)
                 (list_case_sends cfg up
                    (list_billing_requests_query
                       (VObj [("customer_id", VStr "id");
                             ("billing_request_id", VStr "id")]))
                    "/billing_requests?" list_billing_requests_text [] eq_refl)).
      - exact (f_equal (@List.length Request)
                 (id_case_sends cfg up "billing_request_id" _ "id"
                    [("customer_id", VStr "id");
                     ("billing_request_id", VStr "id")]
                    (POST (stringify (VObj [])))
                    fulfil_billing_request_text (fun s => "/billing_requests/" ++ s ++ "/actions/fulfil") eq_refl Hid)).
    }
    intros Hempty. rewrite Hempty in Hone. discriminate Hone.
  - intros [arguments Hsent].
    destruct (fst (callTool cfg name arguments up)) as [| req rest] eqn:E;
      [contradiction |].
    destruct (sent_request_site cfg name arguments up req)
      as [endpoint [options [Hsite _]]].
    { rewrite E. left. reflexivity. }
    apply (site_is_registered _ _ _ Hsite).
Qed.

Lemma registry_matches_switch_witness :
  accessToken sample_config <> ""
  /\ (In "list_payments" (map Registry.name listTools)
      <-> exists arguments,
            fst (callTool sample_config "list_payments" arguments
                   (fun _ => Rejects OtherValue)) <> []).
Proof.
  assert (Htoken : accessToken sample_config <> "") by (simpl; discriminate).
  split; [exact Htoken |].
  exact (registry_matches_switch sample_config "list_payments"
           (fun _ => Rejects OtherValue) Htoken).
Defined.

(** ** The body of create_billing_request *)




